(** * aider/sendchat.py: provider dispatch, retry, cache key and prompt conversion

    A shallow embedding of [src/aider/sendchat.py].  Python values are
    modelled as follows.

    - [str] is [string]; every character is a code point below 256.
    - An exception is a constructor of [exn]; a call that may raise
      returns a [result].
    - A [dict] whose insertion order matters is an association list with
      the assignment semantics of [dict_set]; the response cache and
      [os.environ] are finite maps.
    - JSON-like request and response objects are values of [json].

    Each function is modelled as its body is written.  The constructors
    of the two client libraries are taken to succeed, the remote
    endpoints are functions of the process, and the length of the waits
    between retries is not modelled.  The class [AnthropicTokens], whose
    body and constructor read names the module does not bind, is left
    out. *)

From Stdlib Require Import String Ascii List ZArith Lia Bool Permutation.
From Stdlib Require Import OrderedTypeEx DecimalString.
From stdpp Require Import gmap strings.
Import ListNotations.

Local Open Scope list_scope.
Local Open Scope string_scope.

(** ** Exceptions and results *)

Inductive exn : Type :=
| AttributeError (name : string)
| KeyError (key : string)
| ValueError (msg : string)
| UnboundLocalError (name : string)
| IndexError
| TypeError
(* openai.error *)
| Timeout
| APIError
| ServiceUnavailableError
| RateLimitError
| APIConnectionError
| InvalidRequestError
| AuthenticationError
(* requests.exceptions *)
| RequestsConnectionError
(* anthropic *)
| APIStatusError (response_text : string)
(* raise Exception(text) *)
| PyException (msg : string).

Inductive result (A : Type) : Type :=
| Ok (a : A)
| Raise (e : exn).

Arguments Ok {A} a.
Arguments Raise {A} e.

Definition rbind {A B : Type} (r : result A) (k : A -> result B) : result B :=
  match r with
  | Ok a => k a
  | Raise e => Raise e
  end.

Declare Scope result_scope.
Delimit Scope result_scope with result.
Notation "x <- r ;; k" := (rbind r (fun x => k))
  (at level 100, r at next level, right associativity) : result_scope.

Definition is_ok {A : Type} (r : result A) : bool :=
  match r with Ok _ => true | Raise _ => false end.

(** ** Strings *)

Module Str.

Definition nl : string := String (ascii_of_nat 10) EmptyString.

(** [s.startswith(p)] *)
Definition startswith (s p : string) : bool := String.prefix p s.

(** [s.split(sep)] for a non-empty separator: the leftmost occurrences
    of [sep], not overlapping.  [skip] counts the characters of a
    separator that has been recognised and is still being passed over;
    [cur] is the piece collected so far. *)
Fixpoint split_go (sep : string) (skip : nat) (cur s : string) : list string :=
  match s with
  | EmptyString => [cur]
  | String c s' =>
      match skip with
      | S k => split_go sep k cur s'
      | O =>
          if String.prefix sep s
          then cur :: split_go sep (String.length sep - 1) EmptyString s'
          else split_go sep 0 (cur ++ String c EmptyString) s'
      end
  end.

Definition split (sep s : string) : list string := split_go sep 0 EmptyString s.

(** [str.isspace] on one character below 256. *)
Definition isspace (c : ascii) : bool :=
  let n := nat_of_ascii c in
  (((9 <=? n) && (n <=? 13)) || ((28 <=? n) && (n <=? 32))
   || (n =? 133) || (n =? 160))%nat.

Fixpoint lstrip (s : string) : string :=
  match s with
  | EmptyString => EmptyString
  | String c s' => if isspace c then lstrip s' else s
  end.

Fixpoint rstrip (s : string) : string :=
  match s with
  | EmptyString => EmptyString
  | String c s' =>
      match rstrip s' with
      | EmptyString => if isspace c then EmptyString else String c EmptyString
      | r => String c r
      end
  end.

(** [s.strip()] *)
Definition strip (s : string) : string := rstrip (lstrip s).

(** [c in s] for a one-character [c] *)
Fixpoint contains_char (c : ascii) (s : string) : bool :=
  match s with
  | EmptyString => false
  | String d s' => Ascii.eqb c d || contains_char c s'
  end.

End Str.

(** ** Insertion-ordered dictionaries with string keys *)

Section Dict.
Context {V : Type}.

(** [d[k] = v]: an existing key keeps its place, a new key goes last. *)
Fixpoint dict_set (k : string) (v : V) (d : list (string * V)) : list (string * V) :=
  match d with
  | [] => [(k, v)]
  | (k', v') :: d' =>
      if String.eqb k k' then (k, v) :: d' else (k', v') :: dict_set k v d'
  end.

Fixpoint dict_get (k : string) (d : list (string * V)) : option V :=
  match d with
  | [] => None
  | (k', v') :: d' => if String.eqb k k' then Some v' else dict_get k d'
  end.
End Dict.

(** ** PromptConverter *)

(** [class RoleOptions(Enum)]: the class body holds two annotations,
    [USER: Literal["user"]] and [ASSISTANT: Literal["assistant"]], and no
    assignment.  An annotation binds no name, so the enumeration has no
    member, and looking a name up on the class raises [AttributeError]. *)
Definition RoleOptions_members : list (string * string) := [].

Definition RoleOptions (name : string) : result string :=
  match dict_get name RoleOptions_members with
  | Some v => Ok v
  | None => Raise (AttributeError name)
  end.

(** The constants [HUMAN_PROMPT] and [AI_PROMPT] are imported from the
    anthropic package, where they are a blank line followed by the name
    of the speaker and a colon.  The annotations in
    [PromptConverter.__init__] name other literals (the blank line after
    the colon); an annotation has no effect on the value. *)
Definition HUMAN_PROMPT : string := Str.nl ++ Str.nl ++ "Human:".
Definition AI_PROMPT : string := Str.nl ++ Str.nl ++ "Assistant:".

Record PromptConverter : Type := {
  human_prompt : string;
  ai_prompt : string;
  (* attribute lookup on the class object stored in [self.role_options] *)
  role_options : string -> result string
}.

Definition PromptConverter_init : PromptConverter :=
  {| human_prompt := HUMAN_PROMPT;
     ai_prompt := AI_PROMPT;
     role_options := RoleOptions |}.

(** The methods of class [PromptConverter] are [__init__],
    [convert_to_anthropic] and [convert_to_openai]; [generate_prompt] is a
    method of [AnthropicChatBot] only, so [self.generate_prompt] raises. *)
Definition PromptConverter_generate_prompt (self : PromptConverter)
  : result (string -> result string) :=
  Raise (AttributeError "generate_prompt").

Local Open Scope result_scope.

(** One turn of the loop of [convert_to_anthropic]. *)
Definition convert_to_anthropic_step (self : PromptConverter)
    (prompt : string) (item : string * string) : result string :=
  let '(role, content) := item in
  user <- role_options self "USER" ;;
  let prompt := if String.eqb role user
                then prompt ++ (human_prompt self ++ content) else prompt in
  assistant <- role_options self "ASSISTANT" ;;
  let prompt := if String.eqb role assistant
                then prompt ++ (ai_prompt self ++ content) else prompt in
  Ok prompt.

Fixpoint convert_to_anthropic_loop (self : PromptConverter)
    (prompt : string) (items : list (string * string)) : result string :=
  match items with
  | [] => Ok prompt
  | item :: rest =>
      prompt <- convert_to_anthropic_step self prompt item ;;
      convert_to_anthropic_loop self prompt rest
  end.

Definition convert_to_anthropic (self : PromptConverter)
    (message_dict : list (string * string)) : result string :=
  convert_to_anthropic_loop self EmptyString message_dict.

(** [role, content = message.split(":")] *)
Definition unpack_role_content (message : string) : result (string * string) :=
  match Str.split ":" message with
  | [role; content] => Ok (role, content)
  | [] => Raise (ValueError "not enough values to unpack (expected 2, got 0)")
  | [_] => Raise (ValueError "not enough values to unpack (expected 2, got 1)")
  | _ => Raise (ValueError "too many values to unpack (expected 2)")
  end.

Fixpoint convert_to_openai_loop (self : PromptConverter)
    (response : list (string * string)) (messages : list string)
  : result (list (string * string)) :=
  match messages with
  | [] => Ok response
  | message :: rest =>
      rc <- unpack_role_content message ;;
      let '(role, content) := rc in
      generate_prompt <- PromptConverter_generate_prompt self ;;
      v <- generate_prompt (Str.strip content) ;;
      convert_to_openai_loop self (dict_set (Str.strip role) v response) rest
  end.

Definition convert_to_openai (self : PromptConverter) (message_string : string)
  : result (list (string * string)) :=
  convert_to_openai_loop self [] (Str.split (Str.nl ++ Str.nl) message_string).

(** Conversation to transcript and back. *)
Definition round_trip (self : PromptConverter) (c : list (string * string))
  : result (list (string * string)) :=
  t <- convert_to_anthropic self c ;;
  convert_to_openai self t.

(** ** JSON values and [json.dumps]

    The request built by [OpenAIChatBot.send_with_retries] and the
    responses of the remote endpoints are JSON-like objects.  A [dict] is
    an association list in insertion order; floats do not occur in the
    request ([temperature] is the integer [0]) and are left out. *)

#[warnings="-register-all"]
Inductive json : Type :=
| JNull
| JBool (b : bool)
| JInt (n : Z)
| JStr (s : string)
| JList (xs : list json)
| JDict (items : list (string * json)).

Module Json.

Definition hex_digit (n : nat) : ascii :=
  ascii_of_nat (if (n <? 10)%nat then 48 + n else 87 + n).

(** [json.encoder.py_encode_basestring_ascii] on one character: the
    backslash, the double quote and everything outside [' '..'~'] is
    escaped. *)
Definition escape_char (c : ascii) : string :=
  let n := nat_of_ascii c in
  if (n =? 34)%nat then String "\" (String c EmptyString)
  else if (n =? 92)%nat then String "\" (String "\" EmptyString)
  else if (n =? 8)%nat then "\b"
  else if (n =? 12)%nat then "\f"
  else if (n =? 10)%nat then "\n"
  else if (n =? 13)%nat then "\r"
  else if (n =? 9)%nat then "\t"
  else if ((32 <=? n) && (n <=? 126))%nat then String c EmptyString
  else "\u00" ++ String (hex_digit (n / 16)) (String (hex_digit (n mod 16)) EmptyString).

Fixpoint escape (s : string) : string :=
  match s with
  | EmptyString => EmptyString
  | String c s' => escape_char c ++ escape s'
  end.

Definition quote : string := String (ascii_of_nat 34) EmptyString.

Definition encode_str (s : string) : string := quote ++ escape s ++ quote.

Definition encode_int (n : Z) : string := NilZero.string_of_int (Z.to_int n).

(** [sorted(dct.items())]: the keys of a [dict] are distinct, so the
    pairs are ordered by key, and [str] compares by code point. *)
Fixpoint insert_item {V : Type} (kv : string * V) (l : list (string * V))
  : list (string * V) :=
  match l with
  | [] => [kv]
  | x :: l' =>
      if String.leb (fst kv) (fst x) then kv :: l else x :: insert_item kv l'
  end.

Definition sorted_items {V : Type} (l : list (string * V)) : list (string * V) :=
  fold_right insert_item [] l.

Definition render_item (kv : string * string) : string :=
  encode_str (fst kv) ++ ": " ++ snd kv.

(** [json.dumps(j, sort_keys=sort_keys)] with the default separators
    [", "] and [": "] and [ensure_ascii=True].  The values are encoded
    before the items are put in order, which gives the same text as
    ordering the items first. *)
Fixpoint dumps (sort_keys : bool) (j : json) : string :=
  match j with
  | JNull => "null"
  | JBool true => "true"
  | JBool false => "false"
  | JInt n => encode_int n
  | JStr s => encode_str s
  | JList xs => "[" ++ String.concat ", " (map (dumps sort_keys) xs) ++ "]"
  | JDict items =>
      let encoded :=
        map (fun kv => let '(k, v) := kv in (k, dumps sort_keys v)) items in
      let ordered := if sort_keys then sorted_items encoded else encoded in
      "{" ++ String.concat ", " (map render_item ordered) ++ "}"
  end.

(** Python's [dict] has distinct keys, at every depth. *)
Fixpoint wf (j : json) : Prop :=
  match j with
  | JList xs => fold_right (fun x acc => wf x /\ acc) True xs
  | JDict items =>
      NoDup (map fst items)
      /\ fold_right (fun kv acc => wf (snd kv) /\ acc) True items
  | _ => True
  end.

End Json.

(** ** The process: environment, module state and remote endpoints *)

(** [hashlib.sha1(key)]: the hash object, determined by the bytes fed to it. *)
Record sha1_object : Type := Sha1 { sha1_data : string }.

(** The digest of a hash object, for a given SHA-1 function on bytes. *)
Definition hexdigest (sha1 : string -> string) (h : sha1_object) : string :=
  sha1 (sha1_data h).

(** A value that is either a string or [False], as [check_api_keys] returns. *)
Inductive str_or_false : Type :=
| PyStr (s : string)
| PyFalse.

Definition truthy (v : str_or_false) : bool :=
  match v with
  | PyStr s => negb (String.eqb s EmptyString)
  | PyFalse => false
  end.

Inductive event : Type :=
| EvJsonDumps (kwargs : json)             (* json.dumps(kwargs, sort_keys=True) *)
| EvSha1 (key : string)                   (* hashlib.sha1(key) *)
| EvCacheContains (key : string)          (* key in CACHE *)
| EvCacheGet (key : string)               (* CACHE[key] *)
| EvCacheSet (key : string) (res : json)  (* CACHE[key] = res *)
| EvOpenAICreate (kwargs : json)          (* openai.ChatCompletion.create *)
| EvAnthropicCreate (model prompt : string) (* anthropic_chat.completions.create(...) *)
| EvBackoff (e : exn)                     (* on_backoff handler, then sleep *)
| EvPrint (text : string)
| EvNewAnthropicChatBot (api_key : str_or_false)
| EvNewOpenAIChatBot (api_key : option string).

(** What stays fixed during a call: [os.environ], the attributes of the
    [openai] module that [send_with_retries] looks for, and the remote
    endpoints.  The [n]-th remote call of a run (counting from 0) answers
    with the endpoint applied to [n] and the request. *)
Record process : Type := {
  environ : gmap string string;
  openai_api_deployment_id : option json;
  openai_api_engine : option json;
  ChatCompletion_create : nat -> json -> result json;
  completions_create : nat -> string -> string -> result (list json)
}.

(** What changes: the module global [CACHE] and the events so far, latest
    first. *)
Record world : Type := {
  CACHE : option (gmap string json);
  log : list event
}.

Definition is_openai_create (ev : event) : bool :=
  match ev with EvOpenAICreate _ => true | _ => false end.

Definition is_anthropic_create (ev : event) : bool :=
  match ev with EvAnthropicCreate _ _ => true | _ => false end.



Definition count_events (p : event -> bool) (l : list event) : nat :=
  List.length (List.filter p l).

Definition openai_calls (w : world) : nat := count_events is_openai_create (log w).
Definition anthropic_calls (w : world) : nat := count_events is_anthropic_create (log w).
Definition remote_calls (w : world) : nat := openai_calls w + anthropic_calls w.

(** ** Computations on the world *)

Definition M (A : Type) : Type := world -> result A * world.

Definition ret {A : Type} (a : A) : M A := fun w => (Ok a, w).
Definition raise {A : Type} (e : exn) : M A := fun w => (Raise e, w).

Definition bind {A B : Type} (m : M A) (k : A -> M B) : M B :=
  fun w =>
    match m w with
    | (Ok a, w') => k a w'
    | (Raise e, w') => (Raise e, w')
    end.

Definition lift {A : Type} (r : result A) : M A := fun w => (r, w).

Definition emit (ev : event) : M unit :=
  fun w => (Ok tt, {| CACHE := CACHE w; log := ev :: log w |}).

Definition get_CACHE : M (option (gmap string json)) := fun w => (Ok (CACHE w), w).

Definition put_CACHE (c : option (gmap string json)) : M unit :=
  fun w => (Ok tt, {| CACHE := c; log := log w |}).

(** [try: body except <handles> as e: handler e] *)
Definition try_except {A : Type} (body : M A) (handles : exn -> bool)
    (handler : exn -> M A) : M A :=
  fun w =>
    match body w with
    | (Ok a, w') => (Ok a, w')
    | (Raise e, w') => if handles e then handler e w' else (Raise e, w')
    end.

Declare Scope M_scope.
Delimit Scope M_scope with M.
Notation "x <~ m ;; k" := (bind m (fun x => k))
  (at level 100, m at next level, right associativity) : M_scope.
Notation "m ;;; k" := (bind m (fun _ => k))
  (at level 100, right associativity) : M_scope.

Local Open Scope M_scope.

(** ** check_api_keys *)

Definition os_getenv (P : process) (name : string) : option string :=
  environ P !! name.

Definition os_environ_getitem (P : process) (name : string) : result string :=
  match environ P !! name with
  | Some v => Ok v
  | None => Raise (KeyError name)
  end.

Definition nonempty (o : option string) : bool :=
  match o with
  | Some s => negb (String.eqb s EmptyString)
  | None => false
  end.

Definition check_api_keys (P : process) : result str_or_false :=
  let openai_api_key := os_getenv P "OPENAI_API_KEY" in
  (anthropic_api_key <- os_environ_getitem P "ANTHROPIC_API_KEY" ;;
   if truthy (PyStr anthropic_api_key) then Ok (PyStr anthropic_api_key)
   else if nonempty openai_api_key then Ok PyFalse
   else Ok PyFalse)%result.

(** ** backoff.on_exception *)

(** The exception classes given to the decorator; none of the other
    classes of [exn] derives from one of them. *)
Definition retried (e : exn) : bool :=
  match e with
  | Timeout | APIError | ServiceUnavailableError | RateLimitError
  | APIConnectionError | RequestsConnectionError => true
  | _ => false
  end.

(** The loop of the decorator.  [remaining] is [max_tries - tries] at the
    call of the target: when the target raises a retried exception and
    [tries == max_tries], the exception is raised again; otherwise the
    [on_backoff] handler runs, the loop sleeps and calls the target
    again. *)
Fixpoint backoff_loop {A : Type} (handles : exn -> bool) (remaining : nat)
    (target : M A) : M A :=
  fun w =>
    match target w with
    | (Ok a, w') => (Ok a, w')
    | (Raise e, w') =>
        if handles e then
          match remaining with
          | O => (Raise e, w')
          | S n => (emit (EvBackoff e) ;;; backoff_loop handles n target) w'
          end
        else (Raise e, w')
    end.

(** [@backoff.on_exception(backoff.expo, handles, max_tries=max_tries)],
    for [max_tries >= 1]. *)
Definition backoff_on_exception {A : Type} (handles : exn -> bool)
    (max_tries : nat) (target : M A) : M A :=
  backoff_loop handles (max_tries - 1) target.

(** ** OpenAIChatBot *)

Record OpenAIChatBot : Type := { openai_bot_api_key : option string }.

Definition OpenAIChatBot_init (P : process) : M OpenAIChatBot :=
  let self := {| openai_bot_api_key := os_getenv P "OPENAI_API_KEY" |} in
  emit (EvNewOpenAIChatBot (openai_bot_api_key self)) ;;;
  ret self.

Definition dict_set_if_some {V : Type} (k : string) (o : option V)
    (d : list (string * V)) : list (string * V) :=
  match o with
  | Some v => dict_set k v d
  | None => d
  end.

(** The keyword arguments of the remote call. *)
Definition build_kwargs (P : process) (model : string) (messages : json)
    (functions : option json) (stream : bool) : list (string * json) :=
  let kwargs := [("model", JStr model); ("messages", messages);
                 ("temperature", JInt 0); ("stream", JBool stream)] in
  let kwargs := dict_set_if_some "functions" functions kwargs in
  let kwargs := dict_set_if_some "deployment_id" (openai_api_deployment_id P) kwargs in
  let kwargs := dict_set_if_some "engine" (openai_api_engine P) kwargs in
  kwargs.

(** [json.dumps(kwargs, sort_keys=True).encode()] *)
Definition request_key (kwargs : list (string * json)) : string :=
  Json.dumps true (JDict kwargs).

Definition openai_ChatCompletion_create (P : process) (kwargs : json) : M json :=
  fun w =>
    (ChatCompletion_create P (openai_calls w) kwargs,
     {| CACHE := CACHE w; log := EvOpenAICreate kwargs :: log w |}).

(** [key in CACHE] *)
Definition CACHE_contains (key : string) : M bool :=
  emit (EvCacheContains key) ;;;
  c <~ get_CACHE ;;
  match c with
  | Some m => ret (bool_decide (is_Some (m !! key)))
  | None => raise TypeError
  end.

(** [CACHE[key]] *)
Definition CACHE_getitem (key : string) : M json :=
  emit (EvCacheGet key) ;;;
  c <~ get_CACHE ;;
  match c with
  | Some m =>
      match m !! key with
      | Some res => ret res
      | None => raise (KeyError key)
      end
  | None => raise TypeError
  end.

(** [CACHE[key] = res] *)
Definition CACHE_setitem (key : string) (res : json) : M unit :=
  emit (EvCacheSet key res) ;;;
  c <~ get_CACHE ;;
  match c with
  | Some m => put_CACHE (Some (<[key := res]> m))
  | None => raise TypeError
  end.

(** [CACHE is not None] *)
Definition CACHE_is_not_None : M bool :=
  c <~ get_CACHE ;;
  ret (match c with Some _ => true | None => false end).

(** [a and b], the right operand evaluated only when the left one holds. *)
Definition and_then (a : bool) (b : M bool) : M bool :=
  if a then b else ret false.

(** The body of [OpenAIChatBot.send_with_retries], without its decorator. *)
Definition OpenAIChatBot_send_with_retries_body (P : process)
    (self : OpenAIChatBot) (model : string) (messages : json)
    (functions : option json) (stream : bool) : M (sha1_object * json) :=
  let kwargs := build_kwargs P model messages functions stream in
  emit (EvJsonDumps (JDict kwargs)) ;;;
  let key := request_key kwargs in
  emit (EvSha1 key) ;;;
  let hash_object := Sha1 key in
  hit <~ and_then (negb stream)
           (enabled <~ CACHE_is_not_None ;; and_then enabled (CACHE_contains key)) ;;
  if hit then
    res <~ CACHE_getitem key ;;
    ret (hash_object, res)
  else
    res <~ openai_ChatCompletion_create P (JDict kwargs) ;;
    store <~ and_then (negb stream) CACHE_is_not_None ;;
    (if store then CACHE_setitem key res else ret tt) ;;;
    ret (hash_object, res).

Definition OpenAIChatBot_send_with_retries (P : process)
    (self : OpenAIChatBot) (model : string) (messages : json)
    (functions : option json) (stream : bool) : M (sha1_object * json) :=
  backoff_on_exception retried 10
    (OpenAIChatBot_send_with_retries_body P self model messages functions stream).

(** Attribute access on a response object. *)
Definition getattr (o : json) (name : string) : result json :=
  match o with
  | JDict items =>
      match dict_get name items with
      | Some v => Ok v
      | None => Raise (AttributeError name)
      end
  | _ => Raise (AttributeError name)
  end.

(** [o[0]] *)
Definition getitem0 (o : json) : result json :=
  match o with
  | JList (x :: _) => Ok x
  | JList [] => Raise IndexError
  | JStr (String c _) => Ok (JStr (String c EmptyString))
  | JStr EmptyString => Raise IndexError
  | JDict _ => Raise (KeyError "0")
  | _ => Raise TypeError
  end.

Definition is_AttributeError_or_InvalidRequestError (e : exn) : bool :=
  match e with
  | AttributeError _ | InvalidRequestError => true
  | _ => false
  end.

Definition OpenAIChatBot_simple_send_with_retries (P : process)
    (self : OpenAIChatBot) (model : string) (messages : json) : M (option json) :=
  try_except
    (hr <~ OpenAIChatBot_send_with_retries P self model messages None false ;;
     let '(_hash, response) := hr in
     lift (choices <- getattr response "choices" ;;
           choice <- getitem0 choices ;;
           message <- getattr choice "message" ;;
           content <- getattr message "content" ;;
           Ok (Some content))%result)
    is_AttributeError_or_InvalidRequestError
    (fun _ => ret None).

(** ** AnthropicChatBot *)

Record AnthropicChatBot : Type := {
  api_key : str_or_false;
  converter : PromptConverter
}.

Definition AnthropicChatBot_init (api_key : str_or_false) : M AnthropicChatBot :=
  emit (EvNewAnthropicChatBot api_key) ;;;
  ret {| api_key := api_key; converter := PromptConverter_init |}.

(** [model.startswith("claude")]; [model] defaults to [None]. *)
Definition is_claude (self : AnthropicChatBot) (model : option string) : result bool :=
  match model with
  | Some m => Ok (Str.startswith m "claude")
  | None => Raise (AttributeError "startswith")
  end.

(** [__init__] stores the converter as [self.converter]; the instance has
    no attribute [prompt_converter]. *)
Definition AnthropicChatBot_prompt_converter (self : AnthropicChatBot)
  : result PromptConverter :=
  Raise (AttributeError "prompt_converter").

(** [convert_to_anthropic(prompt, max_tokens_to_sample, **kwargs)]: the
    method takes one argument besides [self]. *)
Definition convert_to_anthropic_2 (pc : PromptConverter) (prompt : string)
    (max_tokens_to_sample : Z) : result string :=
  Raise TypeError.

Definition anthropic_completions_create (P : process) (model prompt : string)
  : M (list json) :=
  fun w =>
    (completions_create P (anthropic_calls w) model prompt,
     {| CACHE := CACHE w; log := EvAnthropicCreate model prompt :: log w |}).

Definition is_APIStatusError (e : exn) : bool :=
  match e with APIStatusError _ => true | _ => false end.

Definition response_text (e : exn) : string :=
  match e with APIStatusError t => t | _ => EmptyString end.

(** The loop [async for completion in stream] runs one chained assignment:
    the empty string is bound to [response] and then unpacked into the two
    targets [completion.completion, end], which raises on the first
    fragment. *)
Definition consume_stream (fragments : list json) : result (option string) :=
  match fragments with
  | [] => Ok None
  | _ :: _ => Raise (ValueError "not enough values to unpack (expected 2, got 0)")
  end.

(** [AnthropicChatBot.async_stream], run to completion. *)
Definition async_stream (P : process) (self : AnthropicChatBot)
    (prompt : string) (model : option string) : M string :=
  claude <~ lift (is_claude self model) ;;
  response <~
    (if claude then
       try_except
         ((if String.eqb prompt EmptyString
           then raise (ValueError "Prompt cannot be empty") else ret tt) ;;;
          pc <~ lift (AnthropicChatBot_prompt_converter self) ;;
          anthropic_message <~ lift (convert_to_anthropic_2 pc prompt 90000) ;;
          stream <~ anthropic_completions_create P
                      (match model with Some m => m | None => EmptyString end)
                      anthropic_message ;;
          lift (consume_stream stream))
         is_APIStatusError
         (fun err =>
            emit (EvPrint ("Caught API status error with response body: "
                           ++ response_text err)) ;;;
            raise (PyException (response_text err)))
     else ret None) ;;
  match response with
  | Some r => ret r
  | None => raise (UnboundLocalError "response")
  end.

(** ** The dispatchers *)

Inductive bot : Type :=
| BotAnthropic (self : AnthropicChatBot)
| BotOpenAI (self : OpenAIChatBot).

(** [bot.send_with_retries(...)]: class [AnthropicChatBot] defines
    [__init__], [create], [is_claude], [generate_prompt] and
    [async_stream]. *)
Definition bot_send_with_retries (P : process) (b : bot) (model : string)
    (messages : json) (functions : option json) (stream : bool)
  : M (sha1_object * json) :=
  match b with
  | BotAnthropic _ => raise (AttributeError "send_with_retries")
  | BotOpenAI self => OpenAIChatBot_send_with_retries P self model messages functions stream
  end.

Definition bot_simple_send_with_retries (P : process) (b : bot) (model : string)
    (messages : json) : M (option json) :=
  match b with
  | BotAnthropic _ => raise (AttributeError "simple_send_with_retries")
  | BotOpenAI self => OpenAIChatBot_simple_send_with_retries P self model messages
  end.

Definition send_with_retries (P : process) (model : string) (messages : json)
    (functions : option json) (stream : bool) : M (sha1_object * json) :=
  api_key <~ lift (check_api_keys P) ;;
  b <~ (if truthy api_key
        then self <~ AnthropicChatBot_init api_key ;; ret (BotAnthropic self)
        else self <~ OpenAIChatBot_init P ;; ret (BotOpenAI self)) ;;
  bot_send_with_retries P b model messages functions stream.

Definition simple_send_with_retries (P : process) (model : string)
    (messages : json) : M (option json) :=
  api_key <~ lift (check_api_keys P) ;;
  b <~ (if truthy api_key
        then self <~ AnthropicChatBot_init api_key ;; ret (BotAnthropic self)
        else self <~ OpenAIChatBot_init P ;; ret (BotOpenAI self)) ;;
  bot_simple_send_with_retries P b model messages.

(** ** Sample processes and worlds *)

Definition sample_response : json :=
  JDict [("choices", JList [JDict [("message", JDict [("content", JStr "hello")])]])].

Definition sample_messages : json :=
  JList [JDict [("role", JStr "user"); ("content", JStr "hi")]].

(** A process with the given environment whose batch endpoint answers
    every call with [answer]. *)
Definition sample_process (env : list (string * string))
    (answer : nat -> json -> result json) : process :=
  {| environ := list_to_map env;
     openai_api_deployment_id := None;
     openai_api_engine := None;
     ChatCompletion_create := answer;
     completions_create := fun _ _ _ => Ok [] |}.

Definition always_ok : nat -> json -> result json := fun _ _ => Ok sample_response.
Definition always_raises (e : exn) : nat -> json -> result json := fun _ _ => Raise e.

Definition world0 : world := {| CACHE := None; log := [] |}.

(** Only the batch credential is set. *)
Definition process_openai_only : process :=
  sample_process [("OPENAI_API_KEY", "sk-test")] always_ok.

(** Both credentials are set, the streaming one to the empty string. *)
Definition process_empty_anthropic : process :=
  sample_process [("ANTHROPIC_API_KEY", ""); ("OPENAI_API_KEY", "sk-test")] always_ok.

(** Both credentials are set and not empty. *)
Definition process_both : process :=
  sample_process [("ANTHROPIC_API_KEY", "sk-ant"); ("OPENAI_API_KEY", "sk-test")] always_ok.

(** A batch provider in a process with no credential in the environment. *)
Definition sample_bot : OpenAIChatBot := {| openai_bot_api_key := None |}.

Definition process_batch (answer : nat -> json -> result json) : process :=
  sample_process [] answer.

Definition sample_key : string :=
  request_key (build_kwargs (process_batch always_ok) "gpt-4" sample_messages None false).

(** An enabled cache that holds the sample request, and an empty one. *)
Definition world_hit : world :=
  {| CACHE := Some {[ sample_key := JStr "cached" ]}; log := [] |}.

Definition world_empty_cache : world := {| CACHE := Some ∅; log := [] |}.

(** An endpoint that raises retried exceptions twice and then an
    exception that is not retried. *)
Definition fails_then_fatal : nat -> json -> result json :=
  fun n _ =>
    match n with
    | 0 => Raise Timeout
    | 1 => Raise RateLimitError
    | _ => Raise InvalidRequestError
    end.

(** The streaming provider built from the credential of [process_both]. *)
Definition sample_anthropic_bot : AnthropicChatBot :=
  {| api_key := PyStr "sk-ant"; converter := PromptConverter_init |}.

(** The class [RoleOptions] as it would be if its two annotations were
    members holding the annotated literals, and a converter over it.  Used
    to show that the conversion back fails whatever the roles resolve to. *)
Definition RoleOptions_literals (name : string) : result string :=
  match dict_get name [("USER", "user"); ("ASSISTANT", "assistant")] with
  | Some v => Ok v
  | None => Raise (AttributeError name)
  end.

Definition PromptConverter_literal_roles : PromptConverter :=
  {| human_prompt := HUMAN_PROMPT;
     ai_prompt := AI_PROMPT;
     role_options := RoleOptions_literals |}.

(** The separator of transcript segments. *)
Definition blank_line : string := Str.nl ++ Str.nl.

(** Following the words of the specification: a segment is split into
    role and content at its first colon; a segment without a colon has no
    such split. *)
Fixpoint spec_split_first_colon (segment : string) : option (string * string) :=
  match segment with
  | EmptyString => None
  | String c rest =>
      if Ascii.eqb c ":" then Some (EmptyString, rest)
      else match spec_split_first_colon rest with
           | Some (role, content) => Some (String c role, content)
           | None => None
           end
  end.

(** The items of a dict with their values encoded, as [dumps] orders them. *)
Definition encode_items (items : list (string * json)) : list (string * string) :=
  map (fun kv => (fst kv, Json.dumps true (snd kv))) items.

(** ** Requests that differ in the insertion order of their keys *)

(** [same_json a b]: [b] is [a] with the items of its dicts, at any depth,
    inserted in another order. *)
#[warnings="-register-all"]
Inductive same_json : json -> json -> Prop :=
| same_null : same_json JNull JNull
| same_bool (b : bool) : same_json (JBool b) (JBool b)
| same_int (n : Z) : same_json (JInt n) (JInt n)
| same_str (s : string) : same_json (JStr s) (JStr s)
| same_list (xs ys : list json) :
    Forall2 same_json xs ys -> same_json (JList xs) (JList ys)
| same_dict (items items' reordered : list (string * json)) :
    NoDup (map fst items) ->
    Forall2 (fun a b => fst a = fst b /\ same_json (snd a) (snd b)) items items' ->
    Permutation items' reordered ->
    same_json (JDict items) (JDict reordered).

(** The optional [functions] argument. *)
Definition same_functions (f f' : option json) : Prop :=
  match f, f' with
  | Some a, Some b => same_json a b
  | None, None => True
  | _, _ => False
  end.

(** The sample message with its two keys inserted the other way round. *)
Definition sample_messages_reordered : json :=
  JList [JDict [("content", JStr "hi"); ("role", JStr "user")]].

(** The events every run of the batch provider starts with. *)
Definition fingerprinted (kwargs : list (string * json)) (w : world) : list event :=
  EvSha1 (request_key kwargs) :: EvJsonDumps (JDict kwargs) :: log w.

(** The outcome of a run that reached the endpoint. *)
Definition attempt_result (key : string) (r : result json)
  : result (sha1_object * json) :=
  match r with
  | Ok res => Ok (Sha1 key, res)
  | Raise e => Raise e
  end.

(** The cache does not hold [key]: it is disabled or has no such entry. *)
Definition cache_miss (w : world) (key : string) : Prop :=
  match CACHE w with
  | Some m => m !! key = None
  | None => True
  end.

(** ** The other methods of AnthropicChatBot *)

(** A [str] has no attribute [completion]. *)
Definition str_completion (response : string) : result json :=
  Raise (AttributeError "completion").

(** [AnthropicChatBot.create], run to completion.  The model reaches
    [async_stream] through the keyword arguments. *)
Definition AnthropicChatBot_create (P : process) (self : AnthropicChatBot)
    (prompt : string) (model : option string) : M json :=
  response <~ async_stream P self prompt model ;;
  completion <~ lift (str_completion response) ;;
  lift (getattr completion "message").

(** [max_tokens_to_sample] is assigned further down in [generate_prompt],
    which makes it a local name of the function; where the call of the
    endpoint reads it, it is not bound yet. *)
Definition generate_prompt_max_tokens_to_sample : result Z :=
  Raise (UnboundLocalError "max_tokens_to_sample").

(** [__init__] sets no attribute [model] on the instance. *)
Definition AnthropicChatBot_model (self : AnthropicChatBot) : result bool :=
  Raise (AttributeError "model").

Definition is_ValueError (e : exn) : bool :=
  match e with ValueError _ => true | _ => false end.

(** [str(e)] for a [ValueError] made from one message. *)
Definition ValueError_str (e : exn) : string :=
  match e with ValueError msg => msg | _ => EmptyString end.

(** [self.anthropic.completions.create(model, max_tokens_to_sample, prompt)],
    the endpoint of the synchronous client. *)
Definition anthropic_sync_create (endpoint : string -> Z -> string -> result json)
    (model : string) (max_tokens_to_sample : Z) (prompt : string) : M json :=
  fun w =>
    (endpoint model max_tokens_to_sample prompt,
     {| CACHE := CACHE w; log := EvAnthropicCreate model prompt :: log w |}).

(** [model and self.is_claude(model)] *)
Definition model_and_is_claude (self : AnthropicChatBot) (model : option string)
  : result bool :=
  match model with
  | Some m => if String.eqb m EmptyString then Ok false else is_claude self model
  | None => Ok false
  end.

(** [AnthropicChatBot.generate_prompt]: [None] when the condition fails,
    else the error text of a [ValueError] or the completion of the
    response. *)
Definition AnthropicChatBot_generate_prompt
    (endpoint : string -> Z -> string -> result json) (self : AnthropicChatBot)
    (prompt : list (string * string)) (model : option string) : M (option json) :=
  claude <~ lift (model_and_is_claude self model) ;;
  if claude then
    r <~ try_except
           (prompt <~ lift (convert_to_anthropic (converter self) prompt) ;;
            max_tokens_to_sample <~ lift generate_prompt_max_tokens_to_sample ;;
            response <~ anthropic_sync_create endpoint
                          (match model with Some m => m | None => EmptyString end)
                          max_tokens_to_sample prompt ;;
            _has_model <~ lift (AnthropicChatBot_model self) ;;
            (if String.eqb prompt EmptyString
             then raise (ValueError "Prompt cannot be empty") else ret tt) ;;;
            ret (inl response))
           is_ValueError
           (fun e => ret (inr ("Error: " ++ ValueError_str e))) ;;
    match r with
    | inl response => completion <~ lift (getattr response "completion") ;;
                      ret (Some completion)
    | inr text => ret (Some (JStr text))
    end
  else ret None.

(** ** Notions used to state what the batch provider does *)

Definition is_backoff_event (ev : event) : bool :=
  match ev with EvBackoff _ => true | _ => false end.

Definition backoffs (w : world) : nat := count_events is_backoff_event (log w).

(** The request is not answered from the cache: it is a streaming
    request, or the cache does not hold its key. *)
Definition no_hit (stream : bool) (w : world) (key : string) : Prop :=
  stream = true \/ cache_miss w key.

(** The cache after an answer [res] to a request that was sent. *)
Definition cache_after (stream : bool) (key : string) (res : json)
    (c : option (gmap string json)) : option (gmap string json) :=
  if stream then c
  else match c with
       | Some m => Some (<[key := res]> m)
       | None => None
       end.

(** The cache after the outcome [ans] of a request that was sent. *)
Definition cache_after_outcome (stream : bool) (key : string) (ans : result json)
    (c : option (gmap string json)) : option (gmap string json) :=
  match ans with
  | Ok res => cache_after stream key res c
  | Raise _ => c
  end.

(** [c'] is [c] with at most the entry of [key] added: an enabled cache
    stays enabled, a disabled one disabled, no entry is lost or changed,
    and no other key is given an entry. *)
Definition cache_grows_at (key : string) (c c' : option (gmap string json)) : Prop :=
  match c, c' with
  | None, None => True
  | Some m, Some m' =>
      (forall k v, m !! k = Some v -> m' !! k = Some v)
      /\ (forall k, k <> key -> m' !! k = m !! k)
  | _, _ => False
  end.

(** The number of colons of a string. *)
Fixpoint count_colons (s : string) : nat :=
  match s with
  | EmptyString => 0
  | String c s' => (if Ascii.eqb ":" c then 1 else 0) + count_colons s'
  end.

(** The first segment of a transcript. *)
Definition first_segment (transcript : string) : string :=
  hd EmptyString (Str.split (Str.nl ++ Str.nl) transcript).

(** The outcome of a retried call whose first [j] attempts failed: the
    [j]-th answer ends the call when it is a response, an exception that
    is not retried, or the answer to attempt number [max_tries]. *)
Definition ends_call (max_tries j : nat) (ans : result json) : Prop :=
  match ans with
  | Ok _ => True
  | Raise e => retried e = false \/ S j = max_tries
  end.

(** An endpoint that fails with retried exceptions twice and then
    answers. *)
Definition fails_then_answers : nat -> json -> result json :=
  fun n _ =>
    match n with
    | 0 => Raise Timeout
    | 1 => Raise APIConnectionError
    | _ => Ok sample_response
    end.

(** A process with the sample environment of the batch provider and the
    streaming credential set to the empty string, and the same without
    the batch credential. *)
Definition process_empty_anthropic_only : process :=
  sample_process [("ANTHROPIC_API_KEY", "")] always_ok.

(** A response with no choice in it. *)
Definition response_no_choice : json := JDict [("choices", JList [])].

(** A response without the attribute [choices]. *)
Definition response_no_choices_attr : json := JDict [("error", JStr "overloaded")].

Definition always_answers (response : json) : nat -> json -> result json :=
  fun _ _ => Ok response.

(** An endpoint of the synchronous client that always answers. *)
Definition sync_endpoint_ok : string -> Z -> string -> result json :=
  fun _ _ _ => Ok (JDict [("completion", JStr "ok")]).

(** An environment with the streaming credential set and not empty, with
    and without the batch credential. *)
Definition process_anthropic_only : process :=
  sample_process [("ANTHROPIC_API_KEY", "sk-ant")] always_ok.

(** [response.choices[0].message.content], as
    [OpenAIChatBot.simple_send_with_retries] reads it. *)
Definition first_choice_content (response : json) : result json :=
  (choices <- getattr response "choices" ;;
   choice <- getitem0 choices ;;
   message <- getattr choice "message" ;;
   getattr message "content")%result.

(** * Properties *)

(** ** Credential check and dispatch *)

Lemma check_api_keys_absent (P : process) :
  environ P !! "ANTHROPIC_API_KEY" = None ->
  check_api_keys P = Raise (KeyError "ANTHROPIC_API_KEY").
Proof.
  intros Habs. unfold check_api_keys, os_environ_getitem.
  rewrite Habs. reflexivity.
Qed.

Lemma check_api_keys_present (P : process) (k : string) :
  environ P !! "ANTHROPIC_API_KEY" = Some k ->
  check_api_keys P = Ok (if String.eqb k EmptyString then PyFalse else PyStr k).
Proof.
  intros Hk. unfold check_api_keys, os_environ_getitem.
  rewrite Hk. simpl.
  destruct (String.eqb k EmptyString); simpl; [|reflexivity].
  destruct (nonempty _); reflexivity.
Qed.

Lemma truthy_PyStr (k : string) :
  truthy (PyStr k) = true <-> k <> EmptyString.
Proof.
  simpl. destruct (String.eqb_spec k EmptyString); simpl; split; congruence.
Qed.

(** What [check_api_keys] returns is truthy only when it is the streaming
    credential, which is then not empty. *)
Lemma check_api_keys_truthy (P : process) (v : str_or_false) :
  check_api_keys P = Ok v -> truthy v = true ->
  exists k, v = PyStr k /\ environ P !! "ANTHROPIC_API_KEY" = Some k
            /\ k <> EmptyString.
Proof.
  intros Hc Ht.
  destruct (environ P !! "ANTHROPIC_API_KEY") as [k|] eqn:Hk.
  - rewrite (check_api_keys_present P k Hk) in Hc.
    destruct (String.eqb_spec k EmptyString) as [Heq|Hne].
    + injection Hc as Hv. rewrite <- Hv in Ht. discriminate.
    + injection Hc as Hv. exists k. auto.
  - rewrite (check_api_keys_absent P Hk) in Hc. discriminate.
Qed.

(** C4, at the failing input: with only the batch credential in the
    environment, the credential check raises [KeyError], both dispatchers
    propagate it, and no provider is constructed. *)
Theorem C4_absent_streaming_credential_raises :
  is_Some (environ process_openai_only !! "OPENAI_API_KEY")
  /\ environ process_openai_only !! "ANTHROPIC_API_KEY" = None
  /\ check_api_keys process_openai_only = Raise (KeyError "ANTHROPIC_API_KEY")
  /\ send_with_retries process_openai_only "gpt-4" sample_messages None false world0
     = (Raise (KeyError "ANTHROPIC_API_KEY"), world0)
  /\ simple_send_with_retries process_openai_only "gpt-4" sample_messages world0
     = (Raise (KeyError "ANTHROPIC_API_KEY"), world0).
Proof.
  repeat split; try reflexivity.
  exists "sk-test". reflexivity.
Qed.

(** The same for every process: without the streaming credential the
    dispatchers raise [KeyError] and leave the world as it was. *)
Lemma dispatch_without_streaming_credential (P : process) (model : string)
    (messages : json) (functions : option json) (stream : bool) (w : world) :
  environ P !! "ANTHROPIC_API_KEY" = None ->
  send_with_retries P model messages functions stream w
    = (Raise (KeyError "ANTHROPIC_API_KEY"), w)
  /\ simple_send_with_retries P model messages w
    = (Raise (KeyError "ANTHROPIC_API_KEY"), w).
Proof.
  intros Habs.
  unfold send_with_retries, simple_send_with_retries, bind, lift.
  rewrite (check_api_keys_absent P Habs). split; reflexivity.
Qed.

(** C10: whenever [check_api_keys] returns a truthy credential, both
    dispatchers raise [AttributeError], for every model, messages,
    functions and stream flag: the object they build is an
    [AnthropicChatBot], which has neither method.  Nothing is sent to a
    remote endpoint. *)
Theorem C10_truthy_credential_raises_AttributeError
    (P : process) (model : string) (messages : json)
    (functions : option json) (stream : bool) (w : world) (v : str_or_false) :
  check_api_keys P = Ok v ->
  truthy v = true ->
  let r1 := send_with_retries P model messages functions stream w in
  let r2 := simple_send_with_retries P model messages w in
  fst r1 = Raise (AttributeError "send_with_retries")
  /\ fst r2 = Raise (AttributeError "simple_send_with_retries")
  /\ remote_calls (snd r1) = remote_calls w
  /\ remote_calls (snd r2) = remote_calls w.
Proof.
  intros Hc Ht.
  unfold send_with_retries, simple_send_with_retries, bind, lift.
  rewrite Hc, Ht. simpl. auto.
Qed.

Lemma C10_witness :
  let r1 := send_with_retries process_both "gpt-4" sample_messages None false world0 in
  let r2 := simple_send_with_retries process_both "gpt-4" sample_messages world0 in
  fst r1 = Raise (AttributeError "send_with_retries")
  /\ fst r2 = Raise (AttributeError "simple_send_with_retries")
  /\ remote_calls (snd r1) = remote_calls world0
  /\ remote_calls (snd r2) = remote_calls world0.
Proof.
  apply (C10_truthy_credential_raises_AttributeError process_both "gpt-4"
           sample_messages None false world0 (PyStr "sk-ant")).
  - reflexivity.
  - reflexivity.
Defined.

(** C3 as stated fails: with both credentials in the environment and the
    streaming one empty, the dispatchers construct the batch provider
    and send the request through it. *)
Lemma C3_counterexample_empty_streaming_credential :
  is_Some (environ process_empty_anthropic !! "ANTHROPIC_API_KEY")
  /\ is_Some (environ process_empty_anthropic !! "OPENAI_API_KEY")
  /\ (exists h res evs,
        send_with_retries process_empty_anthropic "claude-2" sample_messages None false world0
        = (Ok (h, res),
           {| CACHE := None; log := evs ++ [EvNewOpenAIChatBot (Some "sk-test")] |})%list)
  /\ (exists evs,
        simple_send_with_retries process_empty_anthropic "claude-2" sample_messages world0
        = (Ok (Some (JStr "hello")),
           {| CACHE := None; log := evs ++ [EvNewOpenAIChatBot (Some "sk-test")] |})%list).
Proof.
  split; [exists ""; reflexivity|].
  split; [exists "sk-test"; reflexivity|].
  split.
  - eexists _, _, [_; _; _]. reflexivity.
  - eexists [_; _; _]. reflexivity.
Qed.

(** C3, amended: when both credentials are in the environment and the
    streaming one is not empty, both dispatchers construct the streaming
    provider with that credential and call the method on it, whatever the
    model name and the value of the batch credential; the batch provider
    is not constructed and its endpoint is not called. *)
Theorem C3_streaming_provider_selected
    (P : process) (k o : string) (model : string) (messages : json)
    (functions : option json) (stream : bool) (w : world) :
  environ P !! "ANTHROPIC_API_KEY" = Some k ->
  environ P !! "OPENAI_API_KEY" = Some o ->
  k <> EmptyString ->
  send_with_retries P model messages functions stream w
    = (self <~ AnthropicChatBot_init (PyStr k) ;;
       bot_send_with_retries P (BotAnthropic self) model messages functions stream) w
  /\ simple_send_with_retries P model messages w
    = (self <~ AnthropicChatBot_init (PyStr k) ;;
       bot_simple_send_with_retries P (BotAnthropic self) model messages) w
  /\ log (snd (send_with_retries P model messages functions stream w))
     = EvNewAnthropicChatBot (PyStr k) :: log w
  /\ log (snd (simple_send_with_retries P model messages w))
     = EvNewAnthropicChatBot (PyStr k) :: log w.
Proof.
  intros Hk _ Hne.
  unfold send_with_retries, simple_send_with_retries, bind, lift.
  rewrite (check_api_keys_present P k Hk).
  destruct (String.eqb_spec k EmptyString) as [Heq|_]; [contradiction|].
  assert (Ht : truthy (PyStr k) = true) by (apply truthy_PyStr; exact Hne).
  rewrite Ht. simpl. auto.
Qed.

Lemma C3_witness :
  send_with_retries process_both "gpt-4" sample_messages None false world0
    = (self <~ AnthropicChatBot_init (PyStr "sk-ant") ;;
       bot_send_with_retries process_both (BotAnthropic self) "gpt-4"
         sample_messages None false) world0
  /\ simple_send_with_retries process_both "gpt-4" sample_messages world0
    = (self <~ AnthropicChatBot_init (PyStr "sk-ant") ;;
       bot_simple_send_with_retries process_both (BotAnthropic self) "gpt-4"
         sample_messages) world0
  /\ log (snd (send_with_retries process_both "gpt-4" sample_messages None false world0))
     = EvNewAnthropicChatBot (PyStr "sk-ant") :: log world0
  /\ log (snd (simple_send_with_retries process_both "gpt-4" sample_messages world0))
     = EvNewAnthropicChatBot (PyStr "sk-ant") :: log world0.
Proof.
  apply (C3_streaming_provider_selected process_both "sk-ant" "sk-test" "gpt-4"
           sample_messages None false world0).
  - reflexivity.
  - reflexivity.
  - discriminate.
Defined.

(** ** The batch provider: one run of the body *)

Arguments request_key : simpl never.
Arguments build_kwargs : simpl never.

Ltac run_M :=
  repeat (progress (cbv beta iota delta
                      [bind emit ret raise lift and_then get_CACHE put_CACHE
                       CACHE_is_not_None CACHE_contains CACHE_getitem
                       CACHE_setitem openai_ChatCompletion_create try_except];
                    simpl)).

Section Body.
Variables (P : process) (self : OpenAIChatBot) (model : string)
          (messages : json) (functions : option json).

Let kwargs (stream : bool) := build_kwargs P model messages functions stream.
Let key (stream : bool) := request_key (kwargs stream).

(** A streaming run goes straight to the endpoint and never touches the
    cache. *)
Lemma body_stream (w : world) :
  OpenAIChatBot_send_with_retries_body P self model messages functions true w
  = (attempt_result (key true)
       (ChatCompletion_create P (openai_calls w) (JDict (kwargs true))),
     {| CACHE := CACHE w;
        log := EvOpenAICreate (JDict (kwargs true))
               :: fingerprinted (kwargs true) w |}).
Proof.
  unfold OpenAIChatBot_send_with_retries_body, openai_calls, fingerprinted.
  run_M.
  destruct (ChatCompletion_create P _ _); reflexivity.
Qed.

(** With the cache disabled a run does the same. *)
Lemma body_disabled (stream : bool) (w : world) :
  CACHE w = None ->
  OpenAIChatBot_send_with_retries_body P self model messages functions stream w
  = (attempt_result (key stream)
       (ChatCompletion_create P (openai_calls w) (JDict (kwargs stream))),
     {| CACHE := None;
        log := EvOpenAICreate (JDict (kwargs stream))
               :: fingerprinted (kwargs stream) w |}).
Proof.
  intros Hc.
  unfold OpenAIChatBot_send_with_retries_body, openai_calls, fingerprinted.
  destruct stream; run_M; rewrite ?Hc; run_M;
    destruct (ChatCompletion_create P _ _); reflexivity.
Qed.

(** A hit: the stored response is returned, nothing is sent. *)
Lemma body_hit (w : world) (m : gmap string json) (res : json) :
  CACHE w = Some m ->
  m !! key false = Some res ->
  OpenAIChatBot_send_with_retries_body P self model messages functions false w
  = (Ok (Sha1 (key false), res),
     {| CACHE := Some m;
        log := EvCacheGet (key false) :: EvCacheContains (key false)
               :: fingerprinted (kwargs false) w |}).
Proof.
  intros Hc Hm.
  unfold OpenAIChatBot_send_with_retries_body, fingerprinted.
  run_M. rewrite Hc. run_M. fold (kwargs false). fold (key false).
  rewrite Hm. run_M. rewrite Hm. reflexivity.
Qed.

(** A miss: the request is sent; an answer is stored and returned, an
    exception leaves the cache as it was. *)
Lemma body_miss (w : world) (m : gmap string json) :
  CACHE w = Some m ->
  m !! key false = None ->
  OpenAIChatBot_send_with_retries_body P self model messages functions false w
  = match ChatCompletion_create P (openai_calls w) (JDict (kwargs false)) with
    | Ok res =>
        (Ok (Sha1 (key false), res),
         {| CACHE := Some (<[key false := res]> m);
            log := EvCacheSet (key false) res
                   :: EvOpenAICreate (JDict (kwargs false))
                   :: EvCacheContains (key false)
                   :: fingerprinted (kwargs false) w |})
    | Raise e =>
        (Raise e,
         {| CACHE := Some m;
            log := EvOpenAICreate (JDict (kwargs false))
                   :: EvCacheContains (key false)
                   :: fingerprinted (kwargs false) w |})
    end.
Proof.
  intros Hc Hm.
  unfold OpenAIChatBot_send_with_retries_body, openai_calls, fingerprinted.
  run_M. rewrite Hc. run_M. fold (kwargs false). fold (key false).
  rewrite Hm. run_M.
  destruct (ChatCompletion_create P _ _); reflexivity.
Qed.

End Body.

(** ** The retry loop *)

Section Loop.
Context {A : Type}.
Variables (handles : exn -> bool) (target : M A).

Lemma backoff_loop_ok (n : nat) (w w' : world) (a : A) :
  target w = (Ok a, w') ->
  backoff_loop handles n target w = (Ok a, w').
Proof. intros H. destruct n; simpl; rewrite H; reflexivity. Qed.

Lemma backoff_loop_fatal (n : nat) (w w' : world) (e : exn) :
  target w = (Raise e, w') -> handles e = false ->
  backoff_loop handles n target w = (Raise e, w').
Proof. intros H He. destruct n; simpl; rewrite H, He; reflexivity. Qed.

Lemma backoff_loop_give_up (w w' : world) (e : exn) :
  target w = (Raise e, w') -> handles e = true ->
  backoff_loop handles 0 target w = (Raise e, w').
Proof. intros H He. simpl. rewrite H, He. reflexivity. Qed.

Lemma backoff_loop_again (n : nat) (w w' : world) (e : exn) :
  target w = (Raise e, w') -> handles e = true ->
  backoff_loop handles (S n) target w
  = backoff_loop handles n target
      {| CACHE := CACHE w'; log := EvBackoff e :: log w' |}.
Proof. intros H He. simpl. rewrite H, He. reflexivity. Qed.
End Loop.

Section Retries.
Variables (P : process) (self : OpenAIChatBot) (model : string)
          (messages : json) (functions : option json).

Let kwargs (stream : bool) := build_kwargs P model messages functions stream.
Let key (stream : bool) := request_key (kwargs stream).
Let body (stream : bool) :=
  OpenAIChatBot_send_with_retries_body P self model messages functions stream.

(** A run that misses the cache and whose request fails: one more call
    has been made and the cache is as before. *)
Lemma body_miss_raise (w : world) (e : exn) :
  cache_miss w (key false) ->
  ChatCompletion_create P (openai_calls w) (JDict (kwargs false)) = Raise e ->
  exists w', body false w = (Raise e, w')
             /\ CACHE w' = CACHE w
             /\ openai_calls w' = S (openai_calls w).
Proof.
  intros Hmiss He. unfold cache_miss in Hmiss. unfold body.
  destruct (CACHE w) as [m|] eqn:Hc.
  - rewrite (body_miss P self model messages functions w m Hc Hmiss).
    fold (kwargs false). rewrite He. eexists. split; [reflexivity|].
    split; reflexivity.
  - rewrite (body_disabled P self model messages functions false w Hc).
    fold (kwargs false). rewrite He. eexists. split; [reflexivity|].
    split; reflexivity.
Qed.

(** Retried failures only: after [n] retries the loop gives up with the
    exception of call number [n]. *)
Lemma retries_exhausted (n : nat) : forall w : world,
  cache_miss w (key false) ->
  (forall i, i <= n -> exists e,
      ChatCompletion_create P (openai_calls w + i) (JDict (kwargs false)) = Raise e
      /\ retried e = true) ->
  let run := backoff_loop retried n (body false) w in
  openai_calls (snd run) = openai_calls w + S n
  /\ exists e,
      ChatCompletion_create P (openai_calls w + n) (JDict (kwargs false)) = Raise e
      /\ fst run = Raise e.
Proof.
  induction n as [|n IH]; intros w Hmiss Hall.
  - destruct (Hall 0 (Nat.le_refl 0)) as (e & He & Hr).
    rewrite Nat.add_0_r in He.
    destruct (body_miss_raise w e Hmiss He) as (w' & Hb & _ & Hcalls).
    cbv zeta. rewrite (backoff_loop_give_up retried (body false) w w' e Hb Hr).
    simpl. split; [lia|]. exists e. rewrite Nat.add_0_r. auto.
  - destruct (Hall 0 (Nat.le_0_l _)) as (e & He & Hr).
    rewrite Nat.add_0_r in He.
    destruct (body_miss_raise w e Hmiss He) as (w' & Hb & Hcache & Hcalls).
    cbv zeta. rewrite (backoff_loop_again retried (body false) n w w' e Hb Hr).
    set (w1 := {| CACHE := CACHE w'; log := EvBackoff e :: log w' |}).
    assert (Hcalls1 : openai_calls w1 = S (openai_calls w)) by exact Hcalls.
    assert (Hmiss1 : cache_miss w1 (key false)).
    { unfold cache_miss, w1. simpl. rewrite Hcache. exact Hmiss. }
    destruct (IH w1 Hmiss1) as (Hn & e' & He' & Hres).
    { intros i Hi. rewrite Hcalls1.
      replace (S (openai_calls w) + i) with (openai_calls w + S i) by lia.
      apply Hall. lia. }
    split; [rewrite Hn, Hcalls1; lia|].
    exists e'. split; [|exact Hres].
    rewrite <- He'. rewrite Hcalls1. f_equal. lia.
Qed.

(** [j] retried failures and then an exception that is not retried: it
    is raised at once. *)
Lemma retries_stop_at_fatal (j : nat) : forall (n : nat) (w : world) (e : exn),
  j <= n ->
  cache_miss w (key false) ->
  (forall i, i < j -> exists e',
      ChatCompletion_create P (openai_calls w + i) (JDict (kwargs false)) = Raise e'
      /\ retried e' = true) ->
  ChatCompletion_create P (openai_calls w + j) (JDict (kwargs false)) = Raise e ->
  retried e = false ->
  let run := backoff_loop retried n (body false) w in
  fst run = Raise e /\ openai_calls (snd run) = openai_calls w + S j.
Proof.
  induction j as [|j IH]; intros n w e Hjn Hmiss Hall He Hr.
  - rewrite Nat.add_0_r in He.
    destruct (body_miss_raise w e Hmiss He) as (w' & Hb & _ & Hcalls).
    cbv zeta. rewrite (backoff_loop_fatal retried (body false) n w w' e Hb Hr).
    simpl. split; [reflexivity|lia].
  - destruct n as [|n]; [lia|].
    destruct (Hall 0 (Nat.lt_0_succ _)) as (e0 & He0 & Hr0).
    rewrite Nat.add_0_r in He0.
    destruct (body_miss_raise w e0 Hmiss He0) as (w' & Hb & Hcache & Hcalls).
    cbv zeta. rewrite (backoff_loop_again retried (body false) n w w' e0 Hb Hr0).
    set (w1 := {| CACHE := CACHE w'; log := EvBackoff e0 :: log w' |}).
    assert (Hcalls1 : openai_calls w1 = S (openai_calls w)) by exact Hcalls.
    assert (Hmiss1 : cache_miss w1 (key false)).
    { unfold cache_miss, w1. simpl. rewrite Hcache. exact Hmiss. }
    destruct (IH n w1 e) as (Hres & Hn); try assumption; try lia.
    { intros i Hi. rewrite Hcalls1.
      replace (S (openai_calls w) + i) with (openai_calls w + S i) by lia.
      apply Hall. lia. }
    { rewrite Hcalls1.
      replace (S (openai_calls w) + j) with (openai_calls w + S j) by lia.
      exact He. }
    split; [exact Hres|]. rewrite Hn, Hcalls1. lia.
Qed.


End Retries.

(** ** The batch provider: cache, fingerprint and retries *)

(** C5: a non-streaming request whose key is in an enabled cache gets the
    stored response, and nothing is sent; when the key is not in the
    cache the request is sent, and the answer is stored under the key and
    returned. *)
Theorem C5_cache_hit_and_miss
    (P : process) (self : OpenAIChatBot) (model : string) (messages : json)
    (functions : option json) (w : world) (m : gmap string json) :
  CACHE w = Some m ->
  let kwargs := build_kwargs P model messages functions false in
  let key := request_key kwargs in
  let run := OpenAIChatBot_send_with_retries P self model messages functions false w in
  match m !! key with
  | Some cached =>
      fst run = Ok (Sha1 key, cached)
      /\ openai_calls (snd run) = openai_calls w
      /\ CACHE (snd run) = Some m
  | None =>
      forall res,
        ChatCompletion_create P (openai_calls w) (JDict kwargs) = Ok res ->
        fst run = Ok (Sha1 key, res)
        /\ openai_calls (snd run) = S (openai_calls w)
        /\ CACHE (snd run) = Some (<[key := res]> m)
  end.
Proof.
  intros Hc kwargs key run.
  destruct (m !! key) as [cached|] eqn:Hm.
  - pose proof (body_hit P self model messages functions w m cached Hc Hm) as Hb.
    unfold run, OpenAIChatBot_send_with_retries, backoff_on_exception.
    rewrite (backoff_loop_ok retried _ _ w _ _ Hb). simpl. auto.
  - intros res Hres.
    pose proof (body_miss P self model messages functions w m Hc Hm) as Hb.
    unfold key, kwargs in *. rewrite Hres in Hb.
    unfold run, OpenAIChatBot_send_with_retries, backoff_on_exception.
    rewrite (backoff_loop_ok retried _ _ w _ _ Hb). simpl. auto.
Qed.

Lemma C5_witness :
  (let run := OpenAIChatBot_send_with_retries (process_batch always_ok)
                sample_bot "gpt-4" sample_messages None false world_hit in
   fst run = Ok (Sha1 sample_key, JStr "cached")
   /\ openai_calls (snd run) = 0
   /\ CACHE (snd run) = Some {[ sample_key := JStr "cached" ]})
  /\ (let run := OpenAIChatBot_send_with_retries (process_batch always_ok)
                   sample_bot "gpt-4" sample_messages None false world_empty_cache in
      fst run = Ok (Sha1 sample_key, sample_response)
      /\ openai_calls (snd run) = 1
      /\ CACHE (snd run) = Some (<[sample_key := sample_response]> ∅)).
Proof.
  split.
  - exact (C5_cache_hit_and_miss (process_batch always_ok) sample_bot "gpt-4"
             sample_messages None world_hit
             {[ sample_key := JStr "cached" ]} eq_refl).
  - exact (C5_cache_hit_and_miss (process_batch always_ok) sample_bot "gpt-4"
             sample_messages None world_empty_cache ∅ eq_refl
             sample_response eq_refl).
Defined.



(** C2: a non-streaming request that is not answered from the cache and
    whose remote call raises a retried exception every time is sent
    exactly 10 times, and the exception of the tenth call is raised to
    the caller; an exception outside the retried classes is raised to the
    caller by the attempt that met it, with no further call. *)
Theorem C2_retry_exhaustion
    (P : process) (self : OpenAIChatBot) (model : string) (messages : json)
    (functions : option json) (w : world) :
  let kwargs := build_kwargs P model messages functions false in
  let run := OpenAIChatBot_send_with_retries P self model messages functions false w in
  let answer i := ChatCompletion_create P (openai_calls w + i) (JDict kwargs) in
  cache_miss w (request_key kwargs) ->
  ((forall i, i < 10 -> exists e, answer i = Raise e /\ retried e = true) ->
   openai_calls (snd run) = openai_calls w + 10
   /\ exists e, answer 9 = Raise e /\ fst run = Raise e)
  /\ (forall j e,
        j < 10 ->
        (forall i, i < j -> exists e', answer i = Raise e' /\ retried e' = true) ->
        answer j = Raise e -> retried e = false ->
        fst run = Raise e /\ openai_calls (snd run) = openai_calls w + S j).
Proof.
  intros kwargs run answer Hmiss. split.
  - intros Hall.
    apply (retries_exhausted P self model messages functions 9 w Hmiss).
    intros i Hi. apply Hall. lia.
  - intros j e Hj Hall He Hr.
    apply (retries_stop_at_fatal P self model messages functions j 9 w e);
      try assumption. lia.
Qed.

Lemma C2_witness :
  (let run := OpenAIChatBot_send_with_retries (process_batch (always_raises Timeout))
                sample_bot "gpt-4" sample_messages None false world0 in
   openai_calls (snd run) = 10
   /\ exists e, always_raises Timeout 9 (JDict (build_kwargs
                  (process_batch (always_raises Timeout)) "gpt-4"
                  sample_messages None false)) = Raise e
                /\ fst run = Raise e)
  /\ (let run := OpenAIChatBot_send_with_retries (process_batch fails_then_fatal)
                   sample_bot "gpt-4" sample_messages None false world_empty_cache in
      fst run = Raise InvalidRequestError /\ openai_calls (snd run) = 3).
Proof.
  split.
  - apply (C2_retry_exhaustion (process_batch (always_raises Timeout)) sample_bot
             "gpt-4" sample_messages None world0 I).
    intros i _. exists Timeout. split; reflexivity.
  - apply (proj2 (C2_retry_exhaustion (process_batch fails_then_fatal) sample_bot
                    "gpt-4" sample_messages None world_empty_cache eq_refl)
             2 InvalidRequestError).
    + lia.
    + intros [|[|i]] Hi.
      * exists Timeout. split; reflexivity.
      * exists RateLimitError. split; reflexivity.
      * lia.
    + reflexivity.
    + reflexivity.
Defined.

(** ** The streaming provider *)

(** C8 as stated fails: with an empty prompt and a claude model the
    exception is [ValueError], not [InvalidRequestError]; with another
    model the check of the prompt is not reached and the exception is
    [UnboundLocalError]. *)
Lemma C8_counterexample_not_InvalidRequestError :
  async_stream process_both sample_anthropic_bot "" (Some "claude-2") world0
    = (Raise (ValueError "Prompt cannot be empty"), world0)
  /\ async_stream process_both sample_anthropic_bot "" (Some "gpt-4") world0
    = (Raise (UnboundLocalError "response"), world0)
  /\ fst (async_stream process_both sample_anthropic_bot "" (Some "claude-2") world0)
     <> Raise InvalidRequestError.
Proof.
  split; [reflexivity|]. split; [reflexivity|]. discriminate.
Qed.

(** C8, amended: [async_stream] with an empty prompt raises before any
    remote call and leaves the world untouched, so no endpoint is
    contacted; for a model whose name starts with "claude" the exception
    is [ValueError "Prompt cannot be empty"]. *)
Theorem C8_empty_prompt_raises_before_remote_call
    (P : process) (self : AnthropicChatBot) (model : option string) (w : world) :
  let run := async_stream P self "" model w in
  snd run = w
  /\ remote_calls (snd run) = remote_calls w
  /\ fst run
     = match model with
       | Some m =>
           if Str.startswith m "claude"
           then Raise (ValueError "Prompt cannot be empty")
           else Raise (UnboundLocalError "response")
       | None => Raise (AttributeError "startswith")
       end.
Proof.
  unfold async_stream, is_claude.
  destruct model as [m|]; simpl.
  - unfold bind, lift, try_except, raise, ret. simpl.
    destruct (Str.startswith m "claude"); simpl; auto.
  - unfold bind, lift. simpl. auto.
Qed.

(** The streaming provider never reaches its endpoint, whatever the
    prompt: a prompt that is not empty stops at the lookup of
    [self.prompt_converter]. *)
Lemma async_stream_never_calls (P : process) (self : AnthropicChatBot)
    (prompt : string) (model : option string) (w : world) :
  snd (async_stream P self prompt model w) = w
  /\ is_ok (fst (async_stream P self prompt model w)) = false.
Proof.
  unfold async_stream, is_claude.
  destruct model as [m|]; simpl.
  - unfold bind, lift, try_except, raise, ret. simpl.
    destruct (Str.startswith m "claude"); simpl; [|auto].
    destruct (String.eqb prompt EmptyString); simpl; auto.
  - unfold bind, lift. simpl. auto.
Qed.

(** ** PromptConverter *)

Lemma split_go_not_nil (sep : string) (s : string) :
  forall (skip : nat) (cur : string), Str.split_go sep skip cur s <> [].
Proof.
  induction s as [|c s IH]; intros skip cur; cbn [Str.split_go].
  - discriminate.
  - destruct skip as [|k]; [|apply IH].
    destruct (String.prefix sep (String c s)); [discriminate|apply IH].
Qed.

Lemma append_cons (x : ascii) (a b : string) : String x a ++ b = String x (a ++ b).
Proof. reflexivity. Qed.

Lemma append_assoc (a b c : string) : (a ++ b) ++ c = a ++ (b ++ c).
Proof.
  induction a as [|x a IH]; [reflexivity|].
  rewrite !append_cons, IH. reflexivity.
Qed.

Lemma append_empty_r (a : string) : a ++ EmptyString = a.
Proof.
  induction a as [|x a IH]; [reflexivity|].
  rewrite append_cons, IH. reflexivity.
Qed.

Lemma prefix_colon (c : ascii) (s : string) :
  String.prefix ":" (String c s) = Ascii.eqb ":" c.
Proof.
  cbn [String.prefix].
  destruct (ascii_dec ":" c) as [Heq|Hneq];
    destruct (Ascii.eqb_spec ":" c) as [Heq'|Hneq']; try congruence.
  destruct s; reflexivity.
Qed.

(** A segment without a colon is one piece for [split(":")]. *)
Lemma split_go_no_colon (s : string) : forall cur : string,
  Str.contains_char ":" s = false ->
  Str.split_go ":" 0 cur s = [cur ++ s].
Proof.
  induction s as [|c s IH]; intros cur Hc; cbn [Str.split_go].
  - rewrite append_empty_r. reflexivity.
  - cbn [Str.contains_char] in Hc.
    apply orb_false_elim in Hc. destruct Hc as [Hne Hc].
    rewrite prefix_colon, Hne, (IH _ Hc), append_assoc. reflexivity.
Qed.

Lemma unpack_no_colon (segment : string) :
  Str.contains_char ":" segment = false ->
  unpack_role_content segment
  = Raise (ValueError "not enough values to unpack (expected 2, got 1)").
Proof.
  intros Hc. unfold unpack_role_content, Str.split.
  rewrite (split_go_no_colon segment EmptyString Hc). reflexivity.
Qed.

(** No turn of the loop of [convert_to_openai] completes: a segment that
    does not unpack raises [ValueError], one that does stops at the
    lookup of [self.generate_prompt]. *)
Lemma convert_to_openai_loop_raises (self : PromptConverter)
    (response : list (string * string)) (message : string) (rest : list string) :
  convert_to_openai_loop self response (message :: rest)
  = match unpack_role_content message with
    | Ok _ => Raise (AttributeError "generate_prompt")
    | Raise e => Raise e
    end.
Proof.
  simpl. destruct (unpack_role_content message) as [[role content]|e]; reflexivity.
Qed.

Lemma convert_to_openai_never_returns (self : PromptConverter) (transcript : string) :
  exists e, convert_to_openai self transcript = Raise e.
Proof.
  unfold convert_to_openai, Str.split.
  destruct (Str.split_go (Str.nl ++ Str.nl) 0 EmptyString transcript)
    as [|message rest] eqn:Hs.
  - exfalso. exact (split_go_not_nil _ _ _ _ Hs).
  - rewrite convert_to_openai_loop_raises.
    destruct (unpack_role_content message); eauto.
Qed.

Lemma round_trip_never_returns (self : PromptConverter) (c : list (string * string)) :
  exists e, round_trip self c = Raise e.
Proof.
  unfold round_trip.
  destruct (convert_to_anthropic self c) as [t|e]; simpl.
  - apply convert_to_openai_never_returns.
  - eauto.
Qed.

(** [split(":")] gives one piece more than there are colons. *)
Lemma split_go_colons (s : string) : forall cur : string,
  List.length (Str.split_go ":" 0 cur s) = S (count_colons s).
Proof.
  induction s as [|c s IH]; intros cur; cbn [Str.split_go count_colons].
  - reflexivity.
  - rewrite prefix_colon. destruct (Ascii.eqb ":" c).
    + cbn [List.length]. change (String.length ":" - 1) with 0. rewrite IH. reflexivity.
    + rewrite IH. reflexivity.
Qed.

(** A segment unpacks into role and content exactly when it has one
    colon. *)
Lemma unpack_by_colons (segment : string) :
  match count_colons segment with
  | 0 => unpack_role_content segment
         = Raise (ValueError "not enough values to unpack (expected 2, got 1)")
  | 1 => exists role content, unpack_role_content segment = Ok (role, content)
  | _ => unpack_role_content segment
         = Raise (ValueError "too many values to unpack (expected 2)")
  end.
Proof.
  pose proof (split_go_colons segment EmptyString) as Hlen.
  unfold unpack_role_content, Str.split.
  destruct (Str.split_go ":" 0 EmptyString segment) as [|a [|b [|c rest]]];
    simpl in Hlen; try discriminate.
  - injection Hlen as <-. reflexivity.
  - injection Hlen as <-. eauto.
  - injection Hlen as <-. reflexivity.
Qed.

Lemma count_colons_zero (s : string) :
  count_colons s = 0 -> Str.contains_char ":" s = false.
Proof.
  induction s as [|c s IH]; cbn [count_colons Str.contains_char]; [reflexivity|].
  destruct (Ascii.eqb ":" c); [discriminate|]. exact IH.
Qed.

(** A segment with one colon is cut before and after it. *)
Lemma split_go_one_colon (s : string) :
  count_colons s = 1 ->
  exists role content,
    spec_split_first_colon s = Some (role, content)
    /\ forall cur, Str.split_go ":" 0 cur s = [cur ++ role; content].
Proof.
  induction s as [|c s IH]; cbn [count_colons spec_split_first_colon]; [discriminate|].
  intros Hn. destruct (Ascii.eqb_spec ":" c) as [<-|Hne].
  - exists EmptyString, s. rewrite Ascii.eqb_refl. split; [reflexivity|].
    intros cur. cbn [Str.split_go]. rewrite prefix_colon, Ascii.eqb_refl.
    change (String.length ":" - 1) with 0.
    rewrite (split_go_no_colon s EmptyString) by (apply count_colons_zero; lia).
    rewrite append_empty_r. reflexivity.
  - destruct (IH Hn) as (role & content & Hspec & Hsplit).
    exists (String c role), content.
    assert (Hcb : Ascii.eqb c ":" = false)
      by (destruct (Ascii.eqb_spec c ":") as [Heq|_]; [congruence|reflexivity]).
    rewrite Hcb, Hspec. split; [reflexivity|].
    intros cur. cbn [Str.split_go]. rewrite prefix_colon.
    assert (Hb : Ascii.eqb ":" c = false)
      by (destruct (Ascii.eqb_spec ":" c) as [Heq|_]; [congruence|reflexivity]).
    rewrite Hb, Hsplit, append_assoc. reflexivity.
Qed.

Lemma unpack_one_colon (segment : string) :
  count_colons segment = 1 ->
  exists role content,
    spec_split_first_colon segment = Some (role, content)
    /\ unpack_role_content segment = Ok (role, content).
Proof.
  intros Hn. destruct (split_go_one_colon segment Hn) as (role & content & Hspec & Hsplit).
  exists role, content. split; [exact Hspec|].
  unfold unpack_role_content, Str.split. rewrite Hsplit. reflexivity.
Qed.

(** C1, at the failing input, the conversation of one USER message "hi":
    [convert_to_anthropic] raises at [RoleOptions.USER], so the round trip
    raises.  Were the roles resolved to their literals, the transcript
    would start with the blank line of [HUMAN_PROMPT], its first segment
    would be empty and [convert_to_openai] would raise at it; and the
    transcript the specification gives for this conversation makes
    [convert_to_openai] raise at the lookup of [self.generate_prompt]. *)
Theorem C1_round_trip_raises :
  convert_to_anthropic PromptConverter_init [("user", "hi")]
    = Raise (AttributeError "USER")
  /\ round_trip PromptConverter_init [("user", "hi")]
    = Raise (AttributeError "USER")
  /\ convert_to_anthropic PromptConverter_literal_roles [("user", "hi")]
    = Ok (blank_line ++ "Human:hi")
  /\ Str.split blank_line (blank_line ++ "Human:hi") = [""; "Human:hi"]
  /\ convert_to_openai PromptConverter_literal_roles (blank_line ++ "Human:hi")
    = Raise (ValueError "not enough values to unpack (expected 2, got 1)")
  /\ round_trip PromptConverter_literal_roles [("user", "hi")]
    = Raise (ValueError "not enough values to unpack (expected 2, got 1)")
  /\ Str.split blank_line ("Human:" ++ blank_line ++ "hi") = ["Human:"; "hi"]
  /\ convert_to_openai PromptConverter_init ("Human:" ++ blank_line ++ "hi")
    = Raise (AttributeError "generate_prompt").
Proof.
  repeat split; reflexivity.
Qed.

(** C9 as stated fails: a segment with two colons is not split at the
    first one, it does not unpack at all. *)
Lemma C9_counterexample_not_first_colon :
  spec_split_first_colon "Human:a:b" = Some ("Human", "a:b")
  /\ unpack_role_content "Human:a:b"
     = Raise (ValueError "too many values to unpack (expected 2)")
  /\ (forall self, convert_to_openai self "Human:a:b"
                   = Raise (ValueError "too many values to unpack (expected 2)"))
  /\ ~ (forall segment role content,
          spec_split_first_colon segment = Some (role, content) ->
          unpack_role_content segment = Ok (role, content)).
Proof.
  split; [reflexivity|]. split; [reflexivity|]. split; [intros self; reflexivity|].
  intros H. specialize (H "Human:a:b" "Human" "a:b" eq_refl). discriminate.
Qed.

(** C9, amended: the transcript is cut at every blank line and each
    segment at every colon, into exactly two pieces or not at all.  A
    segment with one colon unpacks into what stands before and after it.
    A segment with no colon is not skipped: it does not unpack
    ([ValueError]), the turn of the loop that meets it raises that
    [ValueError] whatever was converted before and whatever follows, and
    so does the conversion of a transcript that starts with it.  A
    segment with two colons or more raises [ValueError] in the same
    way. *)
Theorem C9_segment_without_colon_raises
    (self : PromptConverter) (response : list (string * string))
    (segment : string) (rest : list string) :
  match count_colons segment with
  | 0 =>
      unpack_role_content segment
        = Raise (ValueError "not enough values to unpack (expected 2, got 1)")
      /\ convert_to_openai_loop self response (segment :: rest)
        = Raise (ValueError "not enough values to unpack (expected 2, got 1)")
      /\ (forall transcript,
            Str.split blank_line transcript = segment :: rest ->
            convert_to_openai self transcript
            = Raise (ValueError "not enough values to unpack (expected 2, got 1)"))
  | 1 =>
      exists role content,
        spec_split_first_colon segment = Some (role, content)
        /\ unpack_role_content segment = Ok (role, content)
  | _ =>
      unpack_role_content segment
        = Raise (ValueError "too many values to unpack (expected 2)")
      /\ convert_to_openai_loop self response (segment :: rest)
        = Raise (ValueError "too many values to unpack (expected 2)")
  end.
Proof.
  pose proof (unpack_by_colons segment) as Hu.
  pose proof (convert_to_openai_loop_raises self response segment rest) as Hl.
  destruct (count_colons segment) as [|[|n]] eqn:Hn.
  - rewrite Hu in Hl. split; [exact Hu|]. split; [exact Hl|].
    intros transcript Hs. unfold convert_to_openai. fold blank_line.
    rewrite Hs, convert_to_openai_loop_raises, Hu. reflexivity.
  - destruct (unpack_one_colon segment Hn) as (role & content & Hspec & Hunpack).
    exists role, content. auto.
  - rewrite Hu in Hl. split; [exact Hu|exact Hl].
Qed.

Lemma C9_witness :
  unpack_role_content "hi"
    = Raise (ValueError "not enough values to unpack (expected 2, got 1)")
  /\ convert_to_openai_loop PromptConverter_init [] ["hi"; "Human: x"]
    = Raise (ValueError "not enough values to unpack (expected 2, got 1)")
  /\ convert_to_openai PromptConverter_init ("hi" ++ blank_line ++ "Human: x")
    = Raise (ValueError "not enough values to unpack (expected 2, got 1)").
Proof.
  destruct (C9_segment_without_colon_raises PromptConverter_init [] "hi" ["Human: x"])
    as (Hunpack & Hloop & Hconvert).
  split; [exact Hunpack|]. split; [exact Hloop|].
  apply Hconvert. reflexivity.
Defined.

(** ** The request key *)

Lemma leb_trans (a b c : string) :
  String.leb a b = true -> String.leb b c = true -> String.leb a c = true.
Proof.
  unfold String.leb. intros Hab Hbc.
  destruct (String.compare a b) eqn:E1; try discriminate;
    destruct (String.compare b c) eqn:E2; try discriminate.
  - apply String.compare_eq_iff in E1. subst b. rewrite E2. reflexivity.
  - apply String.compare_eq_iff in E1. subst b. rewrite E2. reflexivity.
  - apply String.compare_eq_iff in E2. subst c. rewrite E1. reflexivity.
  - apply String_as_OT.cmp_lt in E1, E2.
    pose proof (String_as_OT.lt_trans _ _ _ E1 E2) as H.
    apply String_as_OT.cmp_lt in H. unfold String_as_OT.cmp in H.
    rewrite H. reflexivity.
Qed.

Lemma leb_false_flip (a b : string) :
  String.leb a b = false -> String.leb b a = true.
Proof.
  intros H. destruct (String.leb_total a b) as [H'|H']; congruence.
Qed.

Section Sorting.
Context {V : Type}.
Implicit Types (x y : string * V) (l : list (string * V)).

Lemma insert_item_cons x z l :
  Json.insert_item x (z :: l)
  = if String.leb (fst x) (fst z) then x :: z :: l
    else z :: Json.insert_item x l.
Proof. reflexivity. Qed.

(** Of two different keys exactly one is below the other. *)
Lemma leb_distinct (a b : string) :
  a <> b ->
  (String.leb a b = true /\ String.leb b a = false)
  \/ (String.leb a b = false /\ String.leb b a = true).
Proof.
  intros Hne.
  destruct (String.leb a b) eqn:Hab; destruct (String.leb b a) eqn:Hba; auto.
  - exfalso. apply Hne. apply String.leb_antisym; assumption.
  - apply leb_false_flip in Hab. congruence.
Qed.

(** Two items with different keys can be inserted in either order. *)
Lemma insert_item_comm x y l :
  fst x <> fst y ->
  Json.insert_item x (Json.insert_item y l)
  = Json.insert_item y (Json.insert_item x l).
Proof.
  intros Hne. induction l as [|z l IH].
  - cbn [Json.insert_item].
    destruct (leb_distinct _ _ Hne) as [[Hxy Hyx]|[Hxy Hyx]];
      rewrite Hxy, Hyx; reflexivity.
  - destruct (String.leb (fst y) (fst z)) eqn:Hyz;
      destruct (String.leb (fst x) (fst z)) eqn:Hxz;
      destruct (leb_distinct _ _ Hne) as [[Hxy Hyx]|[Hxy Hyx]];
      repeat (rewrite ?insert_item_cons, ?Hxy, ?Hyx, ?Hyz, ?Hxz);
      try reflexivity;
      try (rewrite (leb_trans _ _ _ Hxy Hyz) in Hxz; discriminate);
      try (rewrite (leb_trans _ _ _ Hyx Hxz) in Hyz; discriminate);
      rewrite IH; reflexivity.
Qed.

(** The order of the items of a dict is lost in [sorted_items]. *)
Lemma sorted_items_perm l l' :
  Permutation l l' -> NoDup (map fst l) ->
  Json.sorted_items l = Json.sorted_items l'.
Proof.
  intros Hp. induction Hp as [|x l l' Hp IH|x y l|l l' l'' Hp1 IH1 Hp2 IH2];
    intros Hnd.
  - reflexivity.
  - unfold Json.sorted_items in *. cbn [fold_right map] in *.
    rewrite IH; [reflexivity|]. inversion Hnd; assumption.
  - unfold Json.sorted_items. cbn [fold_right].
    apply insert_item_comm.
    cbn [map] in Hnd. inversion Hnd as [|? ? Hnotin _]. subst.
    intros Heq. apply Hnotin. rewrite Heq. left.
  - rewrite IH1 by assumption. apply IH2.
    rewrite <- Hp1. exact Hnd.
Qed.
End Sorting.

(** Induction on [same_json] that reaches the values inside lists and
    dicts. *)
Section SameJsonInd.
Variable Q : json -> json -> Prop.
Hypothesis Hnull : Q JNull JNull.
Hypothesis Hbool : forall b, Q (JBool b) (JBool b).
Hypothesis Hint : forall n, Q (JInt n) (JInt n).
Hypothesis Hstr : forall s, Q (JStr s) (JStr s).
Hypothesis Hlist : forall xs ys,
  Forall2 Q xs ys -> Q (JList xs) (JList ys).
Hypothesis Hdict : forall items items' reordered,
  NoDup (map fst items) ->
  Forall2 (fun a b => fst a = fst b /\ Q (snd a) (snd b)) items items' ->
  Permutation items' reordered ->
  Q (JDict items) (JDict reordered).

Lemma same_json_nested_ind : forall a b : json, same_json a b -> Q a b.
Proof.
  exact (fix rec (a b : json) (H : same_json a b) {struct H} : Q a b :=
  match H in same_json a b return Q a b with
  | same_null => Hnull
  | same_bool b => Hbool b
  | same_int n => Hint n
  | same_str s => Hstr s
  | same_list xs ys F =>
      Hlist xs ys
        ((fix go (xs ys : list json) (F : Forall2 same_json xs ys) {struct F}
            : Forall2 Q xs ys :=
            match F in Forall2 _ xs ys return Forall2 Q xs ys with
            | List.Forall2_nil _ => List.Forall2_nil Q
            | List.Forall2_cons x y h t =>
                List.Forall2_cons x y (rec x y h) (go _ _ t)
            end) xs ys F)
  | same_dict items items' reordered nd F p =>
      Hdict items items' reordered nd
        ((fix go (l l' : list (string * json))
              (F : Forall2 (fun a b => fst a = fst b /\ same_json (snd a) (snd b)) l l')
              {struct F}
            : Forall2 (fun a b => fst a = fst b /\ Q (snd a) (snd b)) l l' :=
            match F in Forall2 _ l l'
                  return Forall2 (fun a b => fst a = fst b /\ Q (snd a) (snd b)) l l'
            with
            | List.Forall2_nil _ => List.Forall2_nil _
            | List.Forall2_cons x y h t =>
                List.Forall2_cons x y
                  (match h with
                   | conj e hs => conj e (rec (snd x) (snd y) hs)
                   end)
                  (go _ _ t)
            end) items items' F)
        p
  end).
Qed.
End SameJsonInd.

Lemma dumps_dict (items : list (string * json)) :
  Json.dumps true (JDict items)
  = "{" ++ String.concat ", "
             (map Json.render_item (Json.sorted_items (encode_items items)))
    ++ "}".
Proof.
  assert (E : map (fun kv : string * json =>
                     let '(k, v) := kv in (k, Json.dumps true v)) items
              = encode_items items).
  { unfold encode_items. apply map_ext. intros [k v]. reflexivity. }
  cbn [Json.dumps]. rewrite E. reflexivity.
Qed.

Lemma dumps_list (xs : list json) :
  Json.dumps true (JList xs)
  = "[" ++ String.concat ", " (map (Json.dumps true) xs) ++ "]".
Proof. reflexivity. Qed.

Lemma encode_items_keys (items : list (string * json)) :
  map fst (encode_items items) = map fst items.
Proof.
  unfold encode_items. rewrite map_map. reflexivity.
Qed.

(** Items with the same keys and the same encoded values, in the same
    order, encode to the same list. *)
Lemma encode_items_same (items items' : list (string * json)) :
  Forall2 (fun a b => fst a = fst b
                      /\ Json.dumps true (snd a) = Json.dumps true (snd b))
          items items' ->
  encode_items items = encode_items items'.
Proof.
  induction 1 as [|a b l l' [Hk Hv] _ IH]; [reflexivity|].
  unfold encode_items in *. cbn [map]. rewrite Hk, Hv, IH. reflexivity.
Qed.

(** The text of a request does not depend on the order in which the keys
    of its dicts were inserted. *)
Lemma dumps_same (a b : json) :
  same_json a b -> Json.dumps true a = Json.dumps true b.
Proof.
  revert a b.
  apply (same_json_nested_ind
           (fun a b => Json.dumps true a = Json.dumps true b));
    try reflexivity.
  - intros xs ys HF. rewrite !dumps_list. do 3 f_equal.
    induction HF as [|x y xs ys Hxy _ IH]; [reflexivity|].
    cbn [map]. rewrite Hxy, IH. reflexivity.
  - intros items items' reordered Hnd HF Hp.
    rewrite !dumps_dict. do 4 f_equal.
    rewrite (encode_items_same items items' HF).
    apply sorted_items_perm.
    + unfold encode_items. apply Permutation_map. exact Hp.
    + rewrite <- (encode_items_same items items' HF), encode_items_keys.
      exact Hnd.
Qed.

(** The request key of a dict depends on its items through their
    encodings only. *)
Lemma request_key_same (kwargs kwargs' : list (string * json)) :
  Forall2 (fun a b => fst a = fst b
                      /\ Json.dumps true (snd a) = Json.dumps true (snd b))
          kwargs kwargs' ->
  request_key kwargs = request_key kwargs'.
Proof.
  intros HF. unfold request_key. rewrite !dumps_dict.
  rewrite (encode_items_same kwargs kwargs' HF). reflexivity.
Qed.

(** A well-formed value is [same_json] to itself: requests that are equal
    are a case of requests that differ in key order only. *)
Lemma same_json_refl : forall j : json, Json.wf j -> same_json j j.
Proof.
  exact (fix rec (j : json) : Json.wf j -> same_json j j :=
  match j return Json.wf j -> same_json j j with
  | JNull => fun _ => same_null
  | JBool b => fun _ => same_bool b
  | JInt n => fun _ => same_int n
  | JStr s => fun _ => same_str s
  | JList xs => fun H =>
      same_list xs xs
        ((fix go (l : list json)
            : fold_right (fun x acc => Json.wf x /\ acc) True l ->
              Forall2 same_json l l :=
            match l with
            | [] => fun _ => List.Forall2_nil _
            | x :: l' => fun H =>
                List.Forall2_cons x x (rec x (proj1 H)) (go l' (proj2 H))
            end) xs H)
  | JDict items => fun H =>
      same_dict items items items (proj1 H)
        ((fix go (l : list (string * json))
            : fold_right (fun kv acc => Json.wf (snd kv) /\ acc) True l ->
              Forall2 (fun a b => fst a = fst b /\ same_json (snd a) (snd b)) l l :=
            match l with
            | [] => fun _ => List.Forall2_nil _
            | kv :: l' => fun H =>
                List.Forall2_cons kv kv
                  (conj eq_refl (rec (snd kv) (proj1 H)))
                  (go l' (proj2 H))
            end) items (proj2 H))
        (Permutation_refl items)
  end).
Qed.

(** The key of the request built from reordered arguments. *)
Lemma build_kwargs_same (P : process) (model : string) (messages messages' : json)
    (functions functions' : option json) (stream : bool) :
  same_json messages messages' ->
  same_functions functions functions' ->
  request_key (build_kwargs P model messages functions stream)
  = request_key (build_kwargs P model messages' functions' stream).
Proof.
  intros Hm Hf. apply dumps_same in Hm.
  apply request_key_same.
  unfold build_kwargs, dict_set_if_some.
  destruct functions as [f|], functions' as [f'|]; simpl in Hf; try contradiction;
    try apply dumps_same in Hf;
    destruct (openai_api_deployment_id P), (openai_api_engine P);
    simpl; repeat (constructor; [simpl; split; (reflexivity || assumption)|]);
    constructor.
Qed.

(** Whatever a run of the body returns, the hash object is the one of
    the request key. *)
Lemma body_hash (P : process) (self : OpenAIChatBot) (model : string)
    (messages : json) (functions : option json) (stream : bool) (w : world)
    (h : sha1_object) (res : json) :
  fst (OpenAIChatBot_send_with_retries_body P self model messages functions stream w)
    = Ok (h, res) ->
  h = Sha1 (request_key (build_kwargs P model messages functions stream)).
Proof.
  destruct stream.
  - rewrite body_stream. simpl.
    destruct (ChatCompletion_create P _ _); simpl; congruence.
  - destruct (CACHE w) as [m|] eqn:Hc.
    + destruct (m !! request_key (build_kwargs P model messages functions false))
        as [cached|] eqn:Hm.
      * rewrite (body_hit P self model messages functions w m cached Hc Hm).
        simpl. congruence.
      * rewrite (body_miss P self model messages functions w m Hc Hm).
        destruct (ChatCompletion_create P _ _); simpl; congruence.
    + rewrite (body_disabled P self model messages functions false w Hc). simpl.
      destruct (ChatCompletion_create P _ _); simpl; congruence.
Qed.

(** What the retry loop returns was returned by a run of its target. *)
Lemma backoff_loop_returns {A : Type} (handles : exn -> bool) (target : M A)
    (n : nat) : forall (w : world) (a : A),
  fst (backoff_loop handles n target w) = Ok a ->
  exists w0, fst (target w0) = Ok a.
Proof.
  induction n as [|n IH]; intros w a; simpl;
    destruct (target w) as [[a0|e] w'] eqn:Ht; simpl.
  - intros Heq. exists w. rewrite Ht. exact Heq.
  - destruct (handles e); simpl; discriminate.
  - intros Heq. exists w. rewrite Ht. exact Heq.
  - destruct (handles e); simpl; [|discriminate].
    unfold bind, emit. simpl. apply IH.
Qed.

Lemma send_with_retries_hash (P : process) (self : OpenAIChatBot) (model : string)
    (messages : json) (functions : option json) (stream : bool) (w : world)
    (h : sha1_object) (res : json) :
  fst (OpenAIChatBot_send_with_retries P self model messages functions stream w)
    = Ok (h, res) ->
  h = Sha1 (request_key (build_kwargs P model messages functions stream)).
Proof.
  intros Hrun. unfold OpenAIChatBot_send_with_retries, backoff_on_exception in Hrun.
  apply backoff_loop_returns in Hrun. destruct Hrun as [w0 Hw0].
  exact (body_hash P self model messages functions stream w0 h res Hw0).
Qed.

(** C6: the key and the hash object of a request are functions of the
    request, and requests that differ only in the insertion order of the
    keys of their dicts have the same key, the same hash object and the
    same digest, in whatever state of the world they are sent. *)
Theorem C6_fingerprint_deterministic
    (P : process) (self self' : OpenAIChatBot) (model : string)
    (messages messages' : json) (functions functions' : option json)
    (stream : bool) (w w' : world) :
  same_json messages messages' ->
  same_functions functions functions' ->
  let key := request_key (build_kwargs P model messages functions stream) in
  let key' := request_key (build_kwargs P model messages' functions' stream) in
  key = key'
  /\ (forall sha1 : string -> string,
        hexdigest sha1 (Sha1 key) = hexdigest sha1 (Sha1 key'))
  /\ (forall h res h' res',
        fst (OpenAIChatBot_send_with_retries P self model messages functions stream w)
          = Ok (h, res) ->
        fst (OpenAIChatBot_send_with_retries P self' model messages' functions' stream w')
          = Ok (h', res') ->
        h = h').
Proof.
  intros Hm Hf key key'.
  assert (Hkey : key = key') by exact (build_kwargs_same P model _ _ _ _ stream Hm Hf).
  split; [exact Hkey|]. split.
  - intros sha1. rewrite Hkey. reflexivity.
  - intros h res h' res' Hrun Hrun'.
    rewrite (send_with_retries_hash _ _ _ _ _ _ _ _ _ Hrun),
            (send_with_retries_hash _ _ _ _ _ _ _ _ _ Hrun').
    fold key key'. rewrite Hkey. reflexivity.
Qed.

Lemma sample_messages_same : same_json sample_messages sample_messages_reordered.
Proof.
  apply same_list. constructor; [|constructor].
  apply (same_dict _ [("role", JStr "user"); ("content", JStr "hi")]).
  - apply (bool_decide_unpack _). vm_compute. exact I.
  - repeat (constructor; [split; [reflexivity|constructor]|]). constructor.
  - apply perm_swap.
Qed.

Lemma C6_witness :
  let key := request_key (build_kwargs (process_batch always_ok) "gpt-4"
                            sample_messages None false) in
  let key' := request_key (build_kwargs (process_batch always_ok) "gpt-4"
                             sample_messages_reordered None false) in
  key = key'
  /\ (forall sha1 : string -> string,
        hexdigest sha1 (Sha1 key) = hexdigest sha1 (Sha1 key'))
  /\ (forall h res h' res',
        fst (OpenAIChatBot_send_with_retries (process_batch always_ok) sample_bot
               "gpt-4" sample_messages None false world0)
          = Ok (h, res) ->
        fst (OpenAIChatBot_send_with_retries (process_batch always_ok) sample_bot
               "gpt-4" sample_messages_reordered None false world_empty_cache)
          = Ok (h', res') ->
        h = h').
Proof.
  apply (C6_fingerprint_deterministic (process_batch always_ok) sample_bot sample_bot
           "gpt-4" sample_messages sample_messages_reordered None None false
           world0 world_empty_cache).
  - exact sample_messages_same.
  - exact I.
Defined.

(** ** Checks of the string and JSON primitives against Python *)

Example split_blank_line :
  Str.split blank_line ("a" ++ blank_line ++ blank_line ++ "b") = ["a"; ""; "b"].
Proof. reflexivity. Qed.

Example split_overlapping : Str.split "aa" "aaa" = [""; "a"].
Proof. reflexivity. Qed.

Example split_empty : Str.split ":" "" = [""].
Proof. reflexivity. Qed.

Example strip_both_ends : Str.strip (" " ++ Str.nl ++ "a b" ++ Str.nl) = "a b".
Proof. reflexivity. Qed.

Example dumps_sorts_nested_keys :
  Json.dumps true (JDict [("b", JList [JDict [("z", JInt 1); ("a", JNull)]]);
                          ("a", JStr ("x" ++ Str.nl))])
  = "{" ++ Json.quote ++ "a" ++ Json.quote ++ ": " ++ Json.quote ++ "x\n" ++ Json.quote
    ++ ", " ++ Json.quote ++ "b" ++ Json.quote ++ ": [{"
    ++ Json.quote ++ "a" ++ Json.quote ++ ": null, "
    ++ Json.quote ++ "z" ++ Json.quote ++ ": 1}]}".
Proof. reflexivity. Qed.

Example dumps_keeps_order_without_sort_keys :
  Json.dumps false (JDict [("b", JInt 1); ("a", JInt 2)])
  <> Json.dumps true (JDict [("b", JInt 1); ("a", JInt 2)]).
Proof. vm_compute. discriminate. Qed.

(** * Further properties *)

(** ** The batch provider, for either value of [stream] *)

Section AnyStream.
Variables (P : process) (self : OpenAIChatBot) (model : string)
          (messages : json) (functions : option json) (stream : bool).

Let kwargs := build_kwargs P model messages functions stream.
Let key := request_key kwargs.
Let body := OpenAIChatBot_send_with_retries_body P self model messages functions stream.

(** A run is answered from the cache or it is not. *)
Lemma hit_or_no_hit (w : world) :
  no_hit stream w key
  \/ exists m cached, stream = false /\ CACHE w = Some m /\ m !! key = Some cached.
Proof.
  unfold no_hit, cache_miss. destruct stream; [left; left; reflexivity|].
  destruct (CACHE w) as [m|]; [|left; right; exact I].
  destruct (m !! key) as [cached|] eqn:Hm.
  - right. exists m, cached. auto.
  - left. right. reflexivity.
Qed.

(** A run that is not answered from the cache sends the request once and
    stores an answer when the cache takes part. *)
Lemma body_no_hit (w : world) :
  no_hit stream w key ->
  let ans := ChatCompletion_create P (openai_calls w) (JDict kwargs) in
  exists w', body w = (attempt_result key ans, w')
             /\ openai_calls w' = S (openai_calls w)
             /\ backoffs w' = backoffs w
             /\ CACHE w' = cache_after_outcome stream key ans (CACHE w).
Proof.
  intros Hno ans. unfold body, key, kwargs in *. clear body key kwargs.
  destruct stream.
  - rewrite body_stream. eexists. split; [reflexivity|].
    subst ans. destruct (ChatCompletion_create P _ _); repeat split; reflexivity.
  - destruct Hno as [Hs|Hmiss]; [discriminate|]. unfold cache_miss in Hmiss.
    destruct (CACHE w) as [m|] eqn:Hc.
    + rewrite (body_miss P self model messages functions w m Hc Hmiss).
      subst ans. destruct (ChatCompletion_create P _ _) as [res|e];
        (eexists; split; [reflexivity|]); simpl; rewrite ?Hc; repeat split; reflexivity.
    + rewrite (body_disabled P self model messages functions false w Hc).
      subst ans. destruct (ChatCompletion_create P _ _) as [res|e];
        (eexists; split; [reflexivity|]); simpl; rewrite ?Hc; repeat split; reflexivity.
Qed.

(** A run that is answered from the cache sends nothing. *)
Lemma body_hit_any (w : world) (m : gmap string json) (cached : json) :
  stream = false -> CACHE w = Some m -> m !! key = Some cached ->
  exists w', body w = (Ok (Sha1 key, cached), w')
             /\ openai_calls w' = openai_calls w
             /\ backoffs w' = backoffs w
             /\ CACHE w' = CACHE w.
Proof.
  intros Hs Hc Hm. unfold body, key, kwargs in *. clear body key kwargs.
  subst stream.
  rewrite (body_hit P self model messages functions w m cached Hc Hm).
  eexists. split; [reflexivity|]. simpl. rewrite Hc. repeat split; reflexivity.
Qed.

(** After a failure and the wait that follows it the request is still
    not answered from the cache. *)
Lemma no_hit_after_backoff (w w' : world) (e : exn) :
  no_hit stream w key -> CACHE w' = CACHE w ->
  no_hit stream {| CACHE := CACHE w'; log := EvBackoff e :: log w' |} key.
Proof.
  intros [Hs|Hmiss] Hc; [left; exact Hs|right].
  unfold cache_miss in *. simpl. rewrite Hc. exact Hmiss.
Qed.

(** [j] retried failures and then an answer that ends the call. *)
Lemma retry_outcome (j : nat) : forall (n : nat) (w : world),
  j <= n ->
  no_hit stream w key ->
  (forall i, i < j -> exists e,
      ChatCompletion_create P (openai_calls w + i) (JDict kwargs) = Raise e
      /\ retried e = true) ->
  let ans := ChatCompletion_create P (openai_calls w + j) (JDict kwargs) in
  ends_call (S n) j ans ->
  let run := backoff_loop retried n body w in
  fst run = attempt_result key ans
  /\ openai_calls (snd run) = openai_calls w + S j
  /\ backoffs (snd run) = backoffs w + j
  /\ CACHE (snd run) = cache_after_outcome stream key ans (CACHE w).
Proof.
  induction j as [|j IH]; intros n w Hjn Hno Hall ans Hend run.
  - subst ans run. rewrite Nat.add_0_r in *.
    destruct (body_no_hit w Hno) as (w' & Hb & Hcalls & Hback & Hcache).
    cbv zeta in Hb, Hcache.
    destruct (ChatCompletion_create P (openai_calls w) (JDict kwargs))
      as [res|e] eqn:Hans; simpl in Hb.
    + rewrite (backoff_loop_ok retried body n w w' _ Hb). simpl.
      repeat split; [lia|lia|exact Hcache].
    + simpl in Hend.
      destruct (retried e) eqn:Hr.
      * destruct Hend as [Hf|Hn]; [discriminate|].
        assert (n = 0) by lia. subst n.
        rewrite (backoff_loop_give_up retried body w w' e Hb Hr). simpl.
        repeat split; [lia|lia|exact Hcache].
      * rewrite (backoff_loop_fatal retried body n w w' e Hb Hr). simpl.
        repeat split; [lia|lia|exact Hcache].
  - destruct n as [|n]; [lia|].
    destruct (Hall 0 (Nat.lt_0_succ _)) as (e0 & He0 & Hr0).
    rewrite Nat.add_0_r in He0.
    destruct (body_no_hit w Hno) as (w' & Hb & Hcalls & Hback & Hcache).
    cbv zeta in Hb, Hcache. rewrite He0 in Hb, Hcache. simpl in Hb, Hcache.
    subst run. rewrite (backoff_loop_again retried body n w w' e0 Hb Hr0).
    set (w1 := {| CACHE := CACHE w'; log := EvBackoff e0 :: log w' |}).
    assert (Hcalls1 : openai_calls w1 = S (openai_calls w)) by exact Hcalls.
    assert (Hback1 : backoffs w1 = S (backoffs w)).
    { unfold backoffs, count_events, w1. simpl. f_equal. exact Hback. }
    assert (Hcache1 : CACHE w1 = CACHE w) by exact Hcache.
    assert (Hshift : forall i, openai_calls w1 + i = openai_calls w + S i)
      by (intros i; rewrite Hcalls1; lia).
    destruct (IH n w1) as (Hres & Hn & Hbk & Hca).
    + lia.
    + exact (no_hit_after_backoff w w' e0 Hno Hcache).
    + intros i Hi. rewrite Hshift. apply Hall. lia.
    + rewrite Hshift. fold ans.
      unfold ends_call in *. destruct ans as [res|e]; [exact I|].
      destruct Hend as [Hr|Hn]; [left; exact Hr|right; lia].
    + rewrite Hshift in Hres, Hca. fold ans in Hres, Hca.
      rewrite Hcache1 in Hca.
      repeat split; [exact Hres|lia|lia|exact Hca].
Qed.

(** A run either leaves the cache as it was, having sent the request at
    most once, or it sent the request and stored the answer. *)
Lemma body_outcome (w : world) :
  (openai_calls (snd (body w)) <= S (openai_calls w)
   /\ CACHE (snd (body w)) = CACHE w)
  \/ (exists res, fst (body w) = Ok (Sha1 key, res)
                  /\ openai_calls (snd (body w)) = S (openai_calls w)
                  /\ CACHE (snd (body w)) = cache_after stream key res (CACHE w)
                  /\ no_hit stream w key).
Proof.
  destruct (hit_or_no_hit w) as [Hno|(m & cached & Hs & Hc & Hm)].
  - destruct (body_no_hit w Hno) as (w' & Hb & Hcalls & _ & Hcache).
    cbv zeta in Hb, Hcache. rewrite Hb. simpl.
    destruct (ChatCompletion_create P (openai_calls w) (JDict kwargs)) as [res|e];
      simpl in *.
    + right. exists res. auto.
    + left. split; [lia|exact Hcache].
  - destruct (body_hit_any w m cached Hs Hc Hm) as (w' & Hb & Hcalls & _ & Hcache).
    rewrite Hb. simpl. left. split; [lia|exact Hcache].
Qed.

End AnyStream.

Section Invariants.
Variables (P : process) (self : OpenAIChatBot) (model : string)
          (messages : json) (functions : option json) (stream : bool).

Let kwargs := build_kwargs P model messages functions stream.
Let key := request_key kwargs.
Let body := OpenAIChatBot_send_with_retries_body P self model messages functions stream.

Lemma body_quiet (w : world) :
  openai_calls (snd (body w)) <= S (openai_calls w)
  /\ backoffs (snd (body w)) = backoffs w.
Proof.
  destruct (hit_or_no_hit P self model messages functions stream w)
    as [Hno|(m & cached & Hs & Hc & Hm)].
  - destruct (body_no_hit P self model messages functions stream w Hno)
      as (w' & Hb & Hcalls & Hback & _).
    fold body in Hb. rewrite Hb. simpl. split; [lia|exact Hback].
  - destruct (body_hit_any P self model messages functions stream w m cached Hs Hc Hm)
      as (w' & Hb & Hcalls & Hback & _).
    fold body in Hb. rewrite Hb. simpl. split; [lia|exact Hback].
Qed.

(** With [n] retries allowed, at most [n + 1] requests are sent and at
    most [n] waits are made. *)
Lemma loop_bounds (n : nat) : forall w : world,
  let run := backoff_loop retried n body w in
  openai_calls (snd run) <= openai_calls w + S n
  /\ backoffs (snd run) <= backoffs w + n.
Proof.
  induction n as [|n IH]; intros w run; subst run;
    destruct (body_quiet w) as [Hcalls Hback];
    destruct (body w) as [[a|e] w'] eqn:Hb; simpl in Hcalls, Hback.
  - rewrite (backoff_loop_ok retried body 0 w w' a Hb). simpl. lia.
  - destruct (retried e) eqn:Hr.
    + rewrite (backoff_loop_give_up retried body w w' e Hb Hr). simpl. lia.
    + rewrite (backoff_loop_fatal retried body 0 w w' e Hb Hr). simpl. lia.
  - rewrite (backoff_loop_ok retried body (S n) w w' a Hb). simpl. lia.
  - destruct (retried e) eqn:Hr.
    + rewrite (backoff_loop_again retried body n w w' e Hb Hr).
      set (w1 := {| CACHE := CACHE w'; log := EvBackoff e :: log w' |}).
      assert (Hcalls1 : openai_calls w1 = openai_calls w') by reflexivity.
      assert (Hback1 : backoffs w1 = S (backoffs w')) by reflexivity.
      destruct (IH w1) as [Hc Hk]. lia.
    + rewrite (backoff_loop_fatal retried body (S n) w w' e Hb Hr). simpl. lia.
Qed.

Lemma cache_grows_at_refl (k : string) (c : option (gmap string json)) :
  cache_grows_at k c c.
Proof. destruct c; simpl; auto. Qed.

Lemma cache_grows_at_trans (k : string) (a b c : option (gmap string json)) :
  cache_grows_at k a b -> cache_grows_at k b c -> cache_grows_at k a c.
Proof.
  destruct a as [ma|], b as [mb|], c as [mc|]; simpl; try tauto.
  intros [H1 H2] [H3 H4]. split.
  - intros k0 v Hv. apply H3, H1, Hv.
  - intros k0 Hne. rewrite (H4 k0 Hne). apply H2, Hne.
Qed.

Lemma cache_grows_at_after (w : world) (res : json) :
  no_hit stream w key ->
  cache_grows_at key (CACHE w) (cache_after stream key res (CACHE w)).
Proof.
  intros Hno. unfold cache_after.
  destruct stream; [apply cache_grows_at_refl|].
  destruct Hno as [Hs|Hmiss]; [discriminate|]. unfold cache_miss in Hmiss.
  destruct (CACHE w) as [m|]; simpl; [|exact I]. split.
  - intros k v Hv. destruct (decide (key = k)) as [<-|Hne].
    + congruence.
    + rewrite lookup_insert_ne by exact Hne. exact Hv.
  - intros k Hne. apply lookup_insert_ne. congruence.
Qed.

Lemma body_cache_grows (w : world) :
  cache_grows_at key (CACHE w) (CACHE (snd (body w))).
Proof.
  destruct (body_outcome P self model messages functions stream w)
    as [[_ Hc]|(res & _ & _ & Hc & Hno)]; fold body in Hc; rewrite Hc.
  - apply cache_grows_at_refl.
  - apply cache_grows_at_after. exact Hno.
Qed.

Lemma loop_cache_grows (n : nat) : forall w : world,
  cache_grows_at key (CACHE w) (CACHE (snd (backoff_loop retried n body w))).
Proof.
  induction n as [|n IH]; intros w;
    pose proof (body_cache_grows w) as Hg;
    destruct (body w) as [[a|e] w'] eqn:Hb; simpl in Hg.
  - rewrite (backoff_loop_ok retried body 0 w w' a Hb). exact Hg.
  - destruct (retried e) eqn:Hr.
    + rewrite (backoff_loop_give_up retried body w w' e Hb Hr). exact Hg.
    + rewrite (backoff_loop_fatal retried body 0 w w' e Hb Hr). exact Hg.
  - rewrite (backoff_loop_ok retried body (S n) w w' a Hb). exact Hg.
  - destruct (retried e) eqn:Hr.
    + rewrite (backoff_loop_again retried body n w w' e Hb Hr).
      eapply cache_grows_at_trans; [exact Hg|].
      exact (IH {| CACHE := CACHE w'; log := EvBackoff e :: log w' |}).
    + rewrite (backoff_loop_fatal retried body (S n) w w' e Hb Hr). exact Hg.
Qed.

(** A response that a call returns, the cache taking part, is in the
    cache under the key of the request when the call ends. *)
Lemma loop_answer_stored (n : nat) : forall (w w' : world) (h : sha1_object) (res : json),
  stream = false ->
  is_Some (CACHE w) ->
  backoff_loop retried n body w = (Ok (h, res), w') ->
  exists m', CACHE w' = Some m' /\ m' !! key = Some res.
Proof.
  assert (Hbody : forall (w w' : world) h res,
            stream = false -> is_Some (CACHE w) ->
            body w = (Ok (h, res), w') ->
            exists m', CACHE w' = Some m' /\ m' !! key = Some res).
  { intros w w' h res Hs [m Hc] Hb.
    destruct (hit_or_no_hit P self model messages functions stream w)
      as [Hno|(m0 & cached & _ & Hc0 & Hm0)].
    - destruct (body_no_hit P self model messages functions stream w Hno)
        as (w1 & Hb1 & _ & _ & Hcache).
      fold body in Hb1. cbv zeta in Hb1, Hcache. rewrite Hb in Hb1.
      destruct (ChatCompletion_create P _ _) as [r|e]; simpl in Hb1; [|discriminate].
      injection Hb1 as _ Hr Hw. subst r w1.
      simpl in Hcache. unfold cache_after in Hcache. rewrite Hs, Hc in Hcache.
      eexists. split; [exact Hcache|].
      unfold key, kwargs. rewrite Hs. apply lookup_insert_eq.
    - destruct (body_hit_any P self model messages functions stream w m0 cached
                  Hs Hc0 Hm0) as (w1 & Hb1 & _ & _ & Hcache).
      fold body in Hb1. rewrite Hb in Hb1. injection Hb1 as _ Hr Hw. subst cached w1.
      exists m0. split; [congruence|exact Hm0]. }
  assert (Hkeep : forall (w w' : world) (e : exn),
            is_Some (CACHE w) -> body w = (Raise e, w') -> is_Some (CACHE w')).
  { intros w w' e [m Hc] Hb. pose proof (body_cache_grows w) as Hg.
    rewrite Hb, Hc in Hg. simpl in Hg. destruct (CACHE w'); [eauto|contradiction]. }
  induction n as [|n IH]; intros w w' h res Hs Hsome Hrun;
    destruct (body w) as [[a|e] w0] eqn:Hb.
  - rewrite (backoff_loop_ok retried body 0 w w0 a Hb) in Hrun.
    injection Hrun as -> ->. exact (Hbody w w' h res Hs Hsome Hb).
  - destruct (retried e) eqn:Hr.
    + rewrite (backoff_loop_give_up retried body w w0 e Hb Hr) in Hrun. discriminate.
    + rewrite (backoff_loop_fatal retried body 0 w w0 e Hb Hr) in Hrun. discriminate.
  - rewrite (backoff_loop_ok retried body (S n) w w0 a Hb) in Hrun.
    injection Hrun as -> ->. exact (Hbody w w' h res Hs Hsome Hb).
  - destruct (retried e) eqn:Hr.
    + rewrite (backoff_loop_again retried body n w w0 e Hb Hr) in Hrun.
      apply (IH {| CACHE := CACHE w0; log := EvBackoff e :: log w0 |} w' h res Hs);
        [|exact Hrun].
      simpl. exact (Hkeep w w0 e Hsome Hb).
    + rewrite (backoff_loop_fatal retried body (S n) w w0 e Hb Hr) in Hrun.
      discriminate.
Qed.

End Invariants.

(** The request depends on the process through the two attributes of the
    [openai] module only. *)
Lemma build_kwargs_process (P P' : process) (model : string) (messages : json)
    (functions : option json) (stream : bool) :
  openai_api_deployment_id P' = openai_api_deployment_id P ->
  openai_api_engine P' = openai_api_engine P ->
  build_kwargs P' model messages functions stream
  = build_kwargs P model messages functions stream.
Proof. intros Hd He. unfold build_kwargs. rewrite Hd, He. reflexivity. Qed.

(** X4: whatever the endpoint answers and whatever the cache holds, one
    call of the batch provider sends at most 10 requests and waits at most
    9 times. *)
Theorem send_with_retries_bounds
    (P : process) (self : OpenAIChatBot) (model : string) (messages : json)
    (functions : option json) (stream : bool) (w : world) :
  let run := OpenAIChatBot_send_with_retries P self model messages functions stream w in
  openai_calls (snd run) <= openai_calls w + 10
  /\ backoffs (snd run) <= backoffs w + 9.
Proof.
  exact (loop_bounds P self model messages functions stream 9 w).
Qed.

(** X5: a call of the batch provider, whatever its outcome, leaves a
    disabled cache disabled and an enabled cache enabled, keeps every
    entry with its value, and gives no key other than the key of the
    request an entry. *)
Theorem send_with_retries_cache_grows
    (P : process) (self : OpenAIChatBot) (model : string) (messages : json)
    (functions : option json) (stream : bool) (w : world) :
  let key := request_key (build_kwargs P model messages functions stream) in
  let run := OpenAIChatBot_send_with_retries P self model messages functions stream w in
  cache_grows_at key (CACHE w) (CACHE (snd run)).
Proof.
  exact (loop_cache_grows P self model messages functions stream 9 w).
Qed.

(** X6: when the first [j < 10] requests fail with retried exceptions and
    the next one is answered, the call returns that answer with the hash
    object of the request, after [j + 1] requests and [j] waits, and the
    answer is stored when the cache takes part. *)
Theorem retry_recovers
    (P : process) (self : OpenAIChatBot) (model : string) (messages : json)
    (functions : option json) (stream : bool) (w : world) (j : nat) (res : json) :
  let kwargs := build_kwargs P model messages functions stream in
  let key := request_key kwargs in
  let answer i := ChatCompletion_create P (openai_calls w + i) (JDict kwargs) in
  let run := OpenAIChatBot_send_with_retries P self model messages functions stream w in
  j < 10 ->
  no_hit stream w key ->
  (forall i, i < j -> exists e, answer i = Raise e /\ retried e = true) ->
  answer j = Ok res ->
  fst run = Ok (Sha1 key, res)
  /\ openai_calls (snd run) = openai_calls w + S j
  /\ backoffs (snd run) = backoffs w + j
  /\ CACHE (snd run) = cache_after stream key res (CACHE w).
Proof.
  intros kwargs key answer run Hj Hno Hall Hans.
  pose proof (retry_outcome P self model messages functions stream j 9 w
                ltac:(lia) Hno Hall) as H.
  cbv zeta in H. fold kwargs in H. fold (answer j) in H. rewrite Hans in H.
  exact (H I).
Qed.

Lemma retry_recovers_witness :
  let run := OpenAIChatBot_send_with_retries (process_batch fails_then_answers)
               sample_bot "gpt-4" sample_messages None false world_empty_cache in
  fst run = Ok (Sha1 sample_key, sample_response)
  /\ openai_calls (snd run) = 3
  /\ backoffs (snd run) = 2
  /\ CACHE (snd run) = Some (<[sample_key := sample_response]> ∅).
Proof.
  apply (retry_recovers (process_batch fails_then_answers) sample_bot "gpt-4"
           sample_messages None false world_empty_cache 2 sample_response).
  - lia.
  - right. reflexivity.
  - intros [|[|i]] Hi.
    + exists Timeout. split; reflexivity.
    + exists APIConnectionError. split; reflexivity.
    + lia.
  - reflexivity.
Defined.

(** X7: a request that is not answered from the cache, streaming or not,
    and whose endpoint raises a retried exception at each of ten requests
    is given up after exactly 10 requests and 9 waits; the exception of
    the tenth request is raised and the cache is as it was. *)
Theorem retries_exhausted_any_stream
    (P : process) (self : OpenAIChatBot) (model : string) (messages : json)
    (functions : option json) (stream : bool) (w : world) :
  let kwargs := build_kwargs P model messages functions stream in
  let key := request_key kwargs in
  let answer i := ChatCompletion_create P (openai_calls w + i) (JDict kwargs) in
  let run := OpenAIChatBot_send_with_retries P self model messages functions stream w in
  no_hit stream w key ->
  (forall i, i < 10 -> exists e, answer i = Raise e /\ retried e = true) ->
  (exists e, answer 9 = Raise e /\ fst run = Raise e)
  /\ openai_calls (snd run) = openai_calls w + 10
  /\ backoffs (snd run) = backoffs w + 9
  /\ CACHE (snd run) = CACHE w.
Proof.
  intros kwargs key answer run Hno Hall.
  destruct (Hall 9 ltac:(lia)) as (e & He & Hr).
  pose proof (retry_outcome P self model messages functions stream 9 9 w
                ltac:(lia) Hno ltac:(intros i Hi; apply Hall; lia)) as H.
  cbv zeta in H. fold kwargs in H. fold (answer 9) in H. rewrite He in H.
  assert (Hend : ends_call 10 9 (Raise e)) by (right; reflexivity).
  destruct (H Hend) as (Hres & Hcalls & Hback & Hcache).
  split; [exists e; split; [exact He|exact Hres]|].
  split; [exact Hcalls|]. split; [exact Hback|exact Hcache].
Qed.

Lemma retries_exhausted_any_stream_witness :
  let run := OpenAIChatBot_send_with_retries (process_batch (always_raises RateLimitError))
               sample_bot "gpt-4" sample_messages None true world_hit in
  (exists e, always_raises RateLimitError 9
               (JDict (build_kwargs (process_batch (always_raises RateLimitError))
                         "gpt-4" sample_messages None true)) = Raise e
             /\ fst run = Raise e)
  /\ openai_calls (snd run) = 10
  /\ backoffs (snd run) = 9
  /\ CACHE (snd run) = CACHE world_hit.
Proof.
  apply (retries_exhausted_any_stream (process_batch (always_raises RateLimitError))
           sample_bot "gpt-4" sample_messages None true world_hit).
  - left. reflexivity.
  - intros i _. exists RateLimitError. split; reflexivity.
Defined.

(** X8: when the cache is enabled, the response a non-streaming call
    returns is in the cache under the key of the request when the call
    ends, whether it came from the cache or from the endpoint. *)
Theorem answer_is_stored
    (P : process) (self : OpenAIChatBot) (model : string) (messages : json)
    (functions : option json) (w w' : world) (h : sha1_object) (res : json) :
  is_Some (CACHE w) ->
  OpenAIChatBot_send_with_retries P self model messages functions false w
    = (Ok (h, res), w') ->
  exists m', CACHE w' = Some m'
             /\ m' !! request_key (build_kwargs P model messages functions false)
                = Some res.
Proof.
  intros Hsome Hrun.
  exact (loop_answer_stored P self model messages functions false 9 w w' h res
           eq_refl Hsome Hrun).
Qed.

Lemma answer_is_stored_witness :
  exists m',
    CACHE (snd (OpenAIChatBot_send_with_retries (process_batch fails_then_answers)
                  sample_bot "gpt-4" sample_messages None false world_empty_cache))
    = Some m'
    /\ m' !! request_key (build_kwargs (process_batch fails_then_answers) "gpt-4"
                            sample_messages None false)
       = Some sample_response.
Proof.
  apply (answer_is_stored (process_batch fails_then_answers) sample_bot "gpt-4"
           sample_messages None world_empty_cache _ (Sha1 sample_key) sample_response).
  - exists ∅. reflexivity.
  - vm_compute. reflexivity.
Defined.

(** X9: once a non-streaming call has returned with the cache enabled,
    the same request sent again, by any batch provider object and
    whatever the endpoint would answer now, returns the same hash object
    and response, sends nothing and leaves the cache as it is. *)
Theorem repeated_request_served_from_cache
    (P P' : process) (self self' : OpenAIChatBot) (model : string) (messages : json)
    (functions : option json) (w w1 : world) (h : sha1_object) (res : json) :
  openai_api_deployment_id P' = openai_api_deployment_id P ->
  openai_api_engine P' = openai_api_engine P ->
  is_Some (CACHE w) ->
  OpenAIChatBot_send_with_retries P self model messages functions false w
    = (Ok (h, res), w1) ->
  let run := OpenAIChatBot_send_with_retries P' self' model messages functions false w1 in
  fst run = Ok (h, res)
  /\ openai_calls (snd run) = openai_calls w1
  /\ CACHE (snd run) = CACHE w1.
Proof.
  intros Hd He Hsome Hrun run.
  destruct (loop_answer_stored P self model messages functions false 9 w w1 h res
              eq_refl Hsome Hrun) as (m' & Hc & Hm).
  assert (Hh : h = Sha1 (request_key (build_kwargs P model messages functions false))).
  { apply (send_with_retries_hash P self model messages functions false w h res).
    rewrite Hrun. reflexivity. }
  rewrite <- (build_kwargs_process P P' model messages functions false Hd He) in Hm, Hh.
  pose proof (body_hit P' self' model messages functions w1 m' res Hc Hm) as Hb.
  subst run. unfold OpenAIChatBot_send_with_retries, backoff_on_exception.
  rewrite (backoff_loop_ok retried _ _ w1 _ _ Hb). simpl.
  rewrite Hh, Hc. auto.
Qed.

Lemma repeated_request_served_from_cache_witness :
  let w1 := snd (OpenAIChatBot_send_with_retries (process_batch always_ok) sample_bot
                   "gpt-4" sample_messages None false world_empty_cache) in
  let run := OpenAIChatBot_send_with_retries (process_batch (always_raises Timeout))
               sample_bot "gpt-4" sample_messages None false w1 in
  fst run = Ok (Sha1 sample_key, sample_response)
  /\ openai_calls (snd run) = openai_calls w1
  /\ CACHE (snd run) = CACHE w1.
Proof.
  apply (repeated_request_served_from_cache (process_batch always_ok)
           (process_batch (always_raises Timeout)) sample_bot sample_bot "gpt-4"
           sample_messages None world_empty_cache).
  - reflexivity.
  - reflexivity.
  - exists ∅. reflexivity.
  - vm_compute. reflexivity.
Defined.

(** ** The credential check and the dispatchers, in full *)

(** X1: [check_api_keys] depends on the environment through
    ANTHROPIC_API_KEY only: two environments that agree on it give the
    same outcome, whatever OPENAI_API_KEY is in either, and a result is
    [False] or the streaming credential, never the batch one. *)
Theorem check_api_keys_ignores_batch_credential (P P' : process) :
  environ P !! "ANTHROPIC_API_KEY" = environ P' !! "ANTHROPIC_API_KEY" ->
  check_api_keys P = check_api_keys P'
  /\ (forall v, check_api_keys P = Ok v ->
        (v = PyFalse /\ environ P !! "ANTHROPIC_API_KEY" = Some EmptyString)
        \/ (exists k, v = PyStr k /\ k <> EmptyString
                      /\ environ P !! "ANTHROPIC_API_KEY" = Some k)).
Proof.
  intros Hagree.
  destruct (environ P !! "ANTHROPIC_API_KEY") as [k|] eqn:Hk.
  - rewrite (check_api_keys_present P k Hk).
    rewrite (check_api_keys_present P' k (eq_sym Hagree)).
    split; [reflexivity|]. intros v Hv.
    destruct (String.eqb_spec k EmptyString) as [Hempty|Hne];
      injection Hv as Hv; subst v.
    + left. rewrite Hempty. auto.
    + right. exists k. auto.
  - rewrite (check_api_keys_absent P Hk).
    rewrite (check_api_keys_absent P' (eq_sym Hagree)).
    split; [reflexivity|]. intros v Hv. discriminate.
Qed.

Lemma check_api_keys_ignores_batch_credential_witness :
  check_api_keys process_both = check_api_keys process_anthropic_only
  /\ (forall v, check_api_keys process_both = Ok v ->
        (v = PyFalse /\ environ process_both !! "ANTHROPIC_API_KEY" = Some EmptyString)
        \/ (exists k, v = PyStr k /\ k <> EmptyString
                      /\ environ process_both !! "ANTHROPIC_API_KEY" = Some k)).
Proof.
  apply (check_api_keys_ignores_batch_credential process_both process_anthropic_only).
  reflexivity.
Defined.

(** The three ways a dispatch can go. *)
Lemma dispatch_cases (P : process) :
  environ P !! "ANTHROPIC_API_KEY" = None
  \/ environ P !! "ANTHROPIC_API_KEY" = Some EmptyString
  \/ (exists k, environ P !! "ANTHROPIC_API_KEY" = Some k /\ k <> EmptyString).
Proof.
  destruct (environ P !! "ANTHROPIC_API_KEY") as [k|]; [|auto].
  destruct (String.eqb_spec k EmptyString) as [->|Hne]; [auto|].
  right. right. exists k. auto.
Qed.

Lemma dispatch_streaming (P : process) (k : string) (model : string)
    (messages : json) (functions : option json) (stream : bool) (w : world) :
  environ P !! "ANTHROPIC_API_KEY" = Some k -> k <> EmptyString ->
  fst (send_with_retries P model messages functions stream w)
    = Raise (AttributeError "send_with_retries")
  /\ fst (simple_send_with_retries P model messages w)
    = Raise (AttributeError "simple_send_with_retries").
Proof.
  intros Hk Hne.
  unfold send_with_retries, simple_send_with_retries, bind, lift.
  rewrite (check_api_keys_present P k Hk).
  destruct (String.eqb_spec k EmptyString) as [Heq|_]; [contradiction|].
  rewrite (proj2 (truthy_PyStr k) Hne). simpl. auto.
Qed.

Lemma dispatch_batch (P : process) (model : string)
    (messages : json) (functions : option json) (stream : bool) (w : world) :
  environ P !! "ANTHROPIC_API_KEY" = Some EmptyString ->
  send_with_retries P model messages functions stream w
    = (self <~ OpenAIChatBot_init P ;;
       OpenAIChatBot_send_with_retries P self model messages functions stream) w
  /\ simple_send_with_retries P model messages w
    = (self <~ OpenAIChatBot_init P ;;
       OpenAIChatBot_simple_send_with_retries P self model messages) w.
Proof.
  intros Hk.
  unfold send_with_retries, simple_send_with_retries, bind, lift.
  rewrite (check_api_keys_present P EmptyString Hk). simpl. auto.
Qed.

(** X2: a dispatcher returns a result only in an environment where
    ANTHROPIC_API_KEY is set to the empty string; in every other
    environment both dispatchers raise. *)
Theorem dispatch_returns_only_with_empty_streaming_credential
    (P : process) (model : string) (messages : json) (functions : option json)
    (stream : bool) (w w' : world) :
  is_ok (fst (send_with_retries P model messages functions stream w)) = true
  \/ is_ok (fst (simple_send_with_retries P model messages w')) = true ->
  environ P !! "ANTHROPIC_API_KEY" = Some EmptyString.
Proof.
  intros Hok.
  destruct (dispatch_cases P) as [Habs|[Hempty|(k & Hk & Hne)]].
  - destruct (dispatch_without_streaming_credential P model messages functions
                stream w Habs) as [H1 _].
    destruct (dispatch_without_streaming_credential P model messages functions
                stream w' Habs) as [_ H2].
    rewrite H1, H2 in Hok. simpl in Hok. destruct Hok; discriminate.
  - exact Hempty.
  - destruct (dispatch_streaming P k model messages functions stream w Hk Hne)
      as [H1 _].
    destruct (dispatch_streaming P k model messages functions stream w' Hk Hne)
      as [_ H2].
    rewrite H1, H2 in Hok. simpl in Hok. destruct Hok; discriminate.
Qed.

Lemma dispatch_returns_only_with_empty_streaming_credential_witness :
  environ process_empty_anthropic !! "ANTHROPIC_API_KEY" = Some EmptyString.
Proof.
  apply (dispatch_returns_only_with_empty_streaming_credential
           process_empty_anthropic "gpt-4" sample_messages None false world0 world0).
  left. reflexivity.
Defined.

(** X3: with ANTHROPIC_API_KEY set to the empty string both dispatchers
    construct the batch provider and return what its method returns,
    whether OPENAI_API_KEY is set or not. *)
Theorem dispatch_empty_streaming_credential_uses_batch_provider
    (P : process) (model : string) (messages : json) (functions : option json)
    (stream : bool) (w : world) :
  environ P !! "ANTHROPIC_API_KEY" = Some EmptyString ->
  let w1 := {| CACHE := CACHE w;
               log := EvNewOpenAIChatBot (environ P !! "OPENAI_API_KEY") :: log w |} in
  let self := {| openai_bot_api_key := environ P !! "OPENAI_API_KEY" |} in
  send_with_retries P model messages functions stream w
    = OpenAIChatBot_send_with_retries P self model messages functions stream w1
  /\ simple_send_with_retries P model messages w
    = OpenAIChatBot_simple_send_with_retries P self model messages w1.
Proof.
  intros Hk w1 self.
  destruct (dispatch_batch P model messages functions stream w Hk) as [H1 H2].
  rewrite H1, H2. split; reflexivity.
Qed.

Lemma dispatch_empty_streaming_credential_uses_batch_provider_witness :
  let w1 := {| CACHE := None; log := [EvNewOpenAIChatBot None] |} in
  send_with_retries process_empty_anthropic_only "gpt-4" sample_messages None false world0
    = OpenAIChatBot_send_with_retries process_empty_anthropic_only sample_bot
        "gpt-4" sample_messages None false w1
  /\ simple_send_with_retries process_empty_anthropic_only "gpt-4" sample_messages world0
    = OpenAIChatBot_simple_send_with_retries process_empty_anthropic_only sample_bot
        "gpt-4" sample_messages w1.
Proof.
  apply (dispatch_empty_streaming_credential_uses_batch_provider
           process_empty_anthropic_only "gpt-4" sample_messages None false world0).
  reflexivity.
Defined.

(** ** simple_send_with_retries of the batch provider *)

(** The outcome of a call whose first [j] requests fail with retried
    exceptions and whose next answer ends the call. *)
Lemma send_outcome (P : process) (self : OpenAIChatBot) (model : string)
    (messages : json) (functions : option json) (stream : bool) (w : world) (j : nat) :
  let kwargs := build_kwargs P model messages functions stream in
  let key := request_key kwargs in
  let answer i := ChatCompletion_create P (openai_calls w + i) (JDict kwargs) in
  j < 10 ->
  no_hit stream w key ->
  (forall i, i < j -> exists e, answer i = Raise e /\ retried e = true) ->
  ends_call 10 j (answer j) ->
  exists w',
    OpenAIChatBot_send_with_retries P self model messages functions stream w
    = (attempt_result key (answer j), w')
    /\ openai_calls w' = openai_calls w + S j
    /\ backoffs w' = backoffs w + j
    /\ CACHE w' = cache_after_outcome stream key (answer j) (CACHE w).
Proof.
  intros kwargs key answer Hj Hno Hall Hend.
  pose proof (retry_outcome P self model messages functions stream j 9 w
                ltac:(lia) Hno Hall Hend) as H.
  cbv zeta in H.
  change (backoff_loop retried 9
            (OpenAIChatBot_send_with_retries_body P self model messages functions stream) w)
    with (OpenAIChatBot_send_with_retries P self model messages functions stream w) in H.
  destruct (OpenAIChatBot_send_with_retries P self model messages functions stream w)
    as [r w'].
  simpl in H. destruct H as (Hr & Hc & Hb & Hca).
  exists w'. rewrite Hr. auto.
Qed.

Lemma simple_send_of_raise (P : process) (self : OpenAIChatBot) (model : string)
    (messages : json) (w w' : world) (e : exn) :
  OpenAIChatBot_send_with_retries P self model messages None false w = (Raise e, w') ->
  OpenAIChatBot_simple_send_with_retries P self model messages w
  = (if is_AttributeError_or_InvalidRequestError e then Ok None else Raise e, w').
Proof.
  intros Hsend. unfold OpenAIChatBot_simple_send_with_retries, try_except, bind.
  rewrite Hsend. destruct (is_AttributeError_or_InvalidRequestError e); reflexivity.
Qed.

Lemma simple_send_of_ok (P : process) (self : OpenAIChatBot) (model : string)
    (messages : json) (w w' : world) (h : sha1_object) (response : json) :
  OpenAIChatBot_send_with_retries P self model messages None false w
    = (Ok (h, response), w') ->
  OpenAIChatBot_simple_send_with_retries P self model messages w
  = (match first_choice_content response with
     | Ok content => Ok (Some content)
     | Raise e => if is_AttributeError_or_InvalidRequestError e
                  then Ok None else Raise e
     end, w').
Proof.
  intros Hsend.
  unfold OpenAIChatBot_simple_send_with_retries, try_except, bind, lift,
    first_choice_content.
  rewrite Hsend.
  destruct (getattr response "choices") as [choices|e]; simpl;
    [|destruct (is_AttributeError_or_InvalidRequestError e); reflexivity].
  destruct (getitem0 choices) as [choice|e]; simpl;
    [|destruct (is_AttributeError_or_InvalidRequestError e); reflexivity].
  destruct (getattr choice "message") as [message|e]; simpl;
    [|destruct (is_AttributeError_or_InvalidRequestError e); reflexivity].
  destruct (getattr message "content") as [content|e]; simpl;
    [reflexivity|destruct (is_AttributeError_or_InvalidRequestError e); reflexivity].
Qed.

(** X10: when the endpoint rejects the request with [InvalidRequestError]
    (or raises [AttributeError]), [simple_send_with_retries] returns
    [None]: the request was sent once, with no retry and no wait, and the
    cache is as it was. *)
Theorem simple_send_swallows_rejection
    (P : process) (self : OpenAIChatBot) (model : string) (messages : json)
    (w : world) (e : exn) :
  let kwargs := build_kwargs P model messages None false in
  let run := OpenAIChatBot_simple_send_with_retries P self model messages w in
  cache_miss w (request_key kwargs) ->
  ChatCompletion_create P (openai_calls w) (JDict kwargs) = Raise e ->
  is_AttributeError_or_InvalidRequestError e = true ->
  fst run = Ok None
  /\ openai_calls (snd run) = S (openai_calls w)
  /\ backoffs (snd run) = backoffs w
  /\ CACHE (snd run) = CACHE w.
Proof.
  intros kwargs run Hmiss Hans Hsw.
  assert (Hr : retried e = false) by (destruct e; simpl in *; congruence).
  destruct (send_outcome P self model messages None false w 0) as (w' & Hs & Hc & Hb & Hca).
  - lia.
  - right. exact Hmiss.
  - intros i Hi. lia.
  - cbv zeta. rewrite Nat.add_0_r. fold kwargs. rewrite Hans. left. exact Hr.
  - cbv zeta in Hs, Hca. rewrite Nat.add_0_r in Hs, Hca. fold kwargs in Hs, Hca.
    rewrite Hans in Hs, Hca. simpl in Hs, Hca.
    subst run. rewrite (simple_send_of_raise P self model messages w w' e Hs), Hsw.
    simpl. repeat split; [lia|lia|exact Hca].
Qed.

Lemma simple_send_swallows_rejection_witness :
  let run := OpenAIChatBot_simple_send_with_retries
               (process_batch (always_raises InvalidRequestError)) sample_bot
               "gpt-4" sample_messages world_empty_cache in
  fst run = Ok None
  /\ openai_calls (snd run) = S (openai_calls world_empty_cache)
  /\ backoffs (snd run) = backoffs world_empty_cache
  /\ CACHE (snd run) = CACHE world_empty_cache.
Proof.
  apply (simple_send_swallows_rejection
           (process_batch (always_raises InvalidRequestError)) sample_bot
           "gpt-4" sample_messages world_empty_cache InvalidRequestError).
  - reflexivity.
  - reflexivity.
  - reflexivity.
Defined.

(** X11: when the call returns a response, [simple_send_with_retries]
    gives the content of the first choice; a response that lacks an
    attribute on the way to it gives [None]; a response whose list of
    choices is empty raises [IndexError], which is not caught. *)
Theorem simple_send_reads_first_choice
    (P : process) (self : OpenAIChatBot) (model : string) (messages : json)
    (w w' : world) (h : sha1_object) (response : json) :
  OpenAIChatBot_send_with_retries P self model messages None false w
    = (Ok (h, response), w') ->
  OpenAIChatBot_simple_send_with_retries P self model messages w
  = (match getattr response "choices" with
     | Raise _ => Ok None
     | Ok (JList []) => Raise IndexError
     | Ok (JList (JDict choice :: _)) =>
         match dict_get "message" choice with
         | Some (JDict message) =>
             match dict_get "content" message with
             | Some content => Ok (Some content)
             | None => Ok None
             end
         | _ => Ok None
         end
     | Ok (JList (_ :: _)) => Ok None
     | Ok (JStr EmptyString) => Raise IndexError
     | Ok (JStr (String _ _)) => Ok None
     | Ok (JDict _) => Raise (KeyError "0")
     | Ok _ => Raise TypeError
     end, w').
Proof.
  intros Hsend.
  rewrite (simple_send_of_ok P self model messages w w' h response Hsend).
  f_equal. unfold first_choice_content.
  destruct response as [| | | |xs|items]; try reflexivity.
  simpl. destruct (dict_get "choices" items) as [choices|]; [|reflexivity].
  simpl. destruct choices as [|b|n|s|xs|items']; try reflexivity.
  - destruct s; reflexivity.
  - destruct xs as [|choice rest]; [reflexivity|]. simpl.
    destruct choice as [| | | |ys|choice]; try reflexivity.
    simpl. destruct (dict_get "message" choice) as [message|]; [|reflexivity].
    simpl. destruct message as [| | | |ys|message]; try reflexivity.
    simpl. destruct (dict_get "content" message); reflexivity.
Qed.

Lemma simple_send_reads_first_choice_witness :
  OpenAIChatBot_simple_send_with_retries (process_batch (always_answers response_no_choice))
    sample_bot "gpt-4" sample_messages world0
  = (Raise IndexError,
     snd (OpenAIChatBot_send_with_retries (process_batch (always_answers response_no_choice))
            sample_bot "gpt-4" sample_messages None false world0)).
Proof.
  apply (simple_send_reads_first_choice (process_batch (always_answers response_no_choice))
           sample_bot "gpt-4" sample_messages world0 _
           (Sha1 sample_key) response_no_choice).
  vm_compute. reflexivity.
Defined.

(** X12: retried failures are not swallowed: when no cache entry answers
    the request and the endpoint raises a retried exception at each of
    ten requests, [simple_send_with_retries] raises the exception of the
    tenth request, after 10 requests. *)
Theorem simple_send_propagates_exhaustion
    (P : process) (self : OpenAIChatBot) (model : string) (messages : json)
    (w : world) :
  let kwargs := build_kwargs P model messages None false in
  let answer i := ChatCompletion_create P (openai_calls w + i) (JDict kwargs) in
  let run := OpenAIChatBot_simple_send_with_retries P self model messages w in
  cache_miss w (request_key kwargs) ->
  (forall i, i < 10 -> exists e, answer i = Raise e /\ retried e = true) ->
  (exists e, answer 9 = Raise e /\ fst run = Raise e)
  /\ openai_calls (snd run) = openai_calls w + 10.
Proof.
  intros kwargs answer run Hmiss Hall.
  destruct (Hall 9 ltac:(lia)) as (e & He & Hr).
  destruct (send_outcome P self model messages None false w 9) as (w' & Hs & Hc & _).
  - lia.
  - right. exact Hmiss.
  - intros i Hi. apply Hall. lia.
  - cbv zeta. fold kwargs. fold (answer 9). rewrite He. right. reflexivity.
  - cbv zeta in Hs. fold kwargs in Hs. fold (answer 9) in Hs. rewrite He in Hs.
    simpl in Hs.
    subst run. rewrite (simple_send_of_raise P self model messages w w' e Hs).
    assert (Hsw : is_AttributeError_or_InvalidRequestError e = false)
      by (destruct e; simpl in *; congruence).
    rewrite Hsw. simpl. split; [exists e; auto|exact Hc].
Qed.

Lemma simple_send_propagates_exhaustion_witness :
  let run := OpenAIChatBot_simple_send_with_retries
               (process_batch (always_raises ServiceUnavailableError)) sample_bot
               "gpt-4" sample_messages world0 in
  (exists e, always_raises ServiceUnavailableError 9
               (JDict (build_kwargs (process_batch (always_raises ServiceUnavailableError))
                         "gpt-4" sample_messages None false)) = Raise e
             /\ fst run = Raise e)
  /\ openai_calls (snd run) = 10.
Proof.
  apply (simple_send_propagates_exhaustion
           (process_batch (always_raises ServiceUnavailableError)) sample_bot
           "gpt-4" sample_messages world0).
  - exact I.
  - intros i _. exists ServiceUnavailableError. split; reflexivity.
Defined.

(** ** PromptConverter and the streaming provider, in full *)

(** X13: [convert_to_openai] never returns a conversation, and what it
    raises is decided by the number of colons before the first blank line
    of the transcript: [ValueError] for none or for more than one,
    [AttributeError] (for [generate_prompt]) for exactly one.  The rest of
    the transcript is never looked at. *)
Theorem convert_to_openai_outcome (self : PromptConverter) (transcript : string) :
  convert_to_openai self transcript
  = match count_colons (first_segment transcript) with
    | 0 => Raise (ValueError "not enough values to unpack (expected 2, got 1)")
    | 1 => Raise (AttributeError "generate_prompt")
    | _ => Raise (ValueError "too many values to unpack (expected 2)")
    end.
Proof.
  unfold convert_to_openai, first_segment.
  destruct (Str.split (Str.nl ++ Str.nl) transcript) as [|message rest] eqn:Hs.
  - exfalso. exact (split_go_not_nil _ _ _ _ Hs).
  - rewrite convert_to_openai_loop_raises. cbn [hd].
    pose proof (unpack_by_colons message) as Hu.
    destruct (count_colons message) as [|[|n]].
    + rewrite Hu. reflexivity.
    + destruct Hu as (role & content & Hu). rewrite Hu. reflexivity.
    + rewrite Hu. reflexivity.
Qed.

(** The converter that [__init__] builds raises on every conversation
    that has a message, and gives the empty transcript for the empty one. *)
Lemma convert_to_anthropic_outcome (message_dict : list (string * string)) :
  convert_to_anthropic PromptConverter_init message_dict
  = match message_dict with
    | [] => Ok EmptyString
    | _ :: _ => Raise (AttributeError "USER")
    end.
Proof. destruct message_dict as [|[role content] rest]; reflexivity. Qed.

(** X14: [async_stream] never returns and never reaches its endpoint,
    whatever the prompt and the model: without a model the lookup of
    [startswith] fails; for a model that is not a claude model the name
    [response] is not bound; for a claude model an empty prompt raises
    [ValueError] and a prompt that is not empty stops at the lookup of
    [self.prompt_converter].  The world is left as it was. *)
Theorem async_stream_outcome
    (P : process) (self : AnthropicChatBot) (prompt : string)
    (model : option string) (w : world) :
  async_stream P self prompt model w
  = (match model with
     | None => Raise (AttributeError "startswith")
     | Some m =>
         if Str.startswith m "claude"
         then if String.eqb prompt EmptyString
              then Raise (ValueError "Prompt cannot be empty")
              else Raise (AttributeError "prompt_converter")
         else Raise (UnboundLocalError "response")
     end, w).
Proof.
  unfold async_stream, is_claude.
  destruct model as [m|]; simpl; [|reflexivity].
  unfold bind, lift, try_except, raise, ret. simpl.
  destruct (Str.startswith m "claude"); simpl; [|reflexivity].
  destruct (String.eqb prompt EmptyString); reflexivity.
Qed.

(** X15: [create] never returns a message: it raises what [async_stream]
    raises, sends nothing and leaves the world as it was. *)
Theorem create_never_returns
    (P : process) (self : AnthropicChatBot) (prompt : string)
    (model : option string) (w : world) :
  exists e,
    AnthropicChatBot_create P self prompt model w = (Raise e, w)
    /\ fst (async_stream P self prompt model w) = Raise e
    /\ remote_calls (snd (AnthropicChatBot_create P self prompt model w))
       = remote_calls w.
Proof.
  unfold AnthropicChatBot_create, async_stream, is_claude.
  destruct model as [m|]; [|eexists; repeat split; reflexivity].
  unfold bind, lift, try_except, raise, ret. simpl.
  destruct (Str.startswith m "claude"); simpl;
    [|eexists; repeat split; reflexivity].
  destruct (String.eqb prompt EmptyString); eexists; repeat split; reflexivity.
Qed.

(** X16: [generate_prompt] never reaches its endpoint and never returns a
    completion.  Without a model, with the empty model name or with a
    model that is not a claude model it returns [None]; for a claude model
    it raises, [AttributeError] from the converter when the conversation
    has a message and [UnboundLocalError] for [max_tokens_to_sample] when
    it has none. *)
Theorem generate_prompt_outcome
    (endpoint : string -> Z -> string -> result json) (self : AnthropicChatBot)
    (prompt : list (string * string)) (model : option string) (w : world) :
  converter self = PromptConverter_init ->
  AnthropicChatBot_generate_prompt endpoint self prompt model w
  = (match model with
     | None => Ok None
     | Some m =>
         if String.eqb m EmptyString then Ok None
         else if Str.startswith m "claude"
              then match prompt with
                   | [] => Raise (UnboundLocalError "max_tokens_to_sample")
                   | _ :: _ => Raise (AttributeError "USER")
                   end
              else Ok None
     end, w).
Proof.
  intros Hconv.
  unfold AnthropicChatBot_generate_prompt, model_and_is_claude, is_claude, bind, lift.
  destruct model as [m|]; [|reflexivity].
  destruct (String.eqb m EmptyString); [reflexivity|].
  destruct (Str.startswith m "claude"); [|reflexivity].
  unfold try_except, bind, lift. rewrite Hconv, convert_to_anthropic_outcome.
  destruct prompt as [|item rest]; reflexivity.
Qed.

Lemma generate_prompt_outcome_witness :
  AnthropicChatBot_generate_prompt sync_endpoint_ok sample_anthropic_bot
    [("user", "hi")] (Some "claude-2") world0
  = (Raise (AttributeError "USER"), world0).
Proof.
  apply (generate_prompt_outcome sync_endpoint_ok sample_anthropic_bot
           [("user", "hi")] (Some "claude-2") world0).
  reflexivity.
Defined.
